(** * Stone Image: the image-edit service and its caller

    A shallow embedding of [services/geminiService.ts] (three versions of
    [editImageWithPrompt]) and of the prompt and submit handlers of
    [App.tsx], with the properties of the image-edit contract proved about
    them.

    The [@google/genai] SDK is not part of the sources: its constructor
    and its [generateContent] are taken as they behave, as a parameter.

    JavaScript strings are modelled as [string], one [ascii] per code unit;
    the model is exact for strings whose code units lie below 256 (Latin-1),
    which covers every literal of the sources. *)

From Stdlib Require Import String Ascii List Bool Arith Lia.
Import ListNotations.
Open Scope string_scope.

(* ================================================================== *)
(** ** JavaScript values, truthiness, completions *)

Module Js.

(** The values of type [string | null | undefined]. *)
Inductive value : Type :=
| Str (s : string)
| Null
| Undefined.

(** [ToBoolean]: the empty string, [null] and [undefined] are falsy. *)
Definition truthy (v : value) : bool :=
  match v with
  | Str EmptyString => false
  | Str _ => true
  | Null => false
  | Undefined => false
  end.

(** [a || b]. *)
Definition or (a b : value) : value := if truthy a then a else b.

(** An optional property [p?: string] read from an object. *)
Definition ofOptional (o : option string) : value :=
  match o with
  | Some s => Str s
  | None => Undefined
  end.

(** What a [throw] carries: an [Error] object (identified with its
    [message]) or any value that is not an [Error]. *)
Inductive thrown : Type :=
| ErrorObj (message : string)
| NonError (v : value).

(** How an awaited promise settles. *)
Inductive completion (A : Type) : Type :=
| Fulfilled (a : A)
| Rejected (e : thrown).
Arguments Fulfilled {A} a.
Arguments Rejected {A} e.

(** *** String methods *)

(** White space and line terminators below U+0100, as [trim] sees them. *)
Definition isWhiteSpace (c : ascii) : bool :=
  let n := nat_of_ascii c in
  ((n =? 9) || (n =? 10) || (n =? 11) || (n =? 12) || (n =? 13)
   || (n =? 32) || (n =? 160))%nat.

Fixpoint trimStart (s : string) : string :=
  match s with
  | EmptyString => EmptyString
  | String c s' => if isWhiteSpace c then trimStart s' else s
  end.

Fixpoint trimEnd (s : string) : string :=
  match s with
  | EmptyString => EmptyString
  | String c s' =>
      match trimEnd s' with
      | EmptyString => if isWhiteSpace c then EmptyString else String c EmptyString
      | r => String c r
      end
  end.

(** [s.trim()]. *)
Definition trim (s : string) : string := trimEnd (trimStart s).

(** Lower-casing of one code unit: A-Z, and the Latin-1 capitals
    U+00C0-U+00DE except the multiplication sign U+00D7. *)
Definition lowerChar (c : ascii) : ascii :=
  let n := nat_of_ascii c in
  if (((65 <=? n) && (n <=? 90))
      || ((192 <=? n) && (n <=? 222) && negb (n =? 215)))%nat
  then ascii_of_nat (n + 32)
  else c.

(** [s.toLowerCase()]. *)
Fixpoint toLowerCase (s : string) : string :=
  match s with
  | EmptyString => EmptyString
  | String c s' => String (lowerChar c) (toLowerCase s')
  end.

(** [s.includes(t)]: [t] occurs in [s] at some position. *)
Fixpoint includes (s t : string) : bool :=
  if prefix t s then true
  else match s with
       | EmptyString => false
       | String _ s' => includes s' t
       end.

End Js.

Import Js.

(* ================================================================== *)
(** ** The asynchronous computations of the program

    A computation runs on a state and settles: it is fulfilled with a
    value or rejected with what was thrown. *)

Definition Async (S A : Type) : Type := S -> completion A * S.

Definition ret {S A} (a : A) : Async S A := fun s => (Fulfilled a, s).

Definition throw {S A} (e : thrown) : Async S A := fun s => (Rejected e, s).

Definition bind {S A B} (m : Async S A) (k : A -> Async S B) : Async S B :=
  fun s =>
    match m s with
    | (Fulfilled a, s') => k a s'
    | (Rejected e, s') => (Rejected e, s')
    end.

(** [try { body } catch (e) { handler }]. *)
Definition tryCatch {S A} (body : Async S A) (handler : thrown -> Async S A)
  : Async S A :=
  fun s =>
    match body s with
    | (Fulfilled a, s') => (Fulfilled a, s')
    | (Rejected e, s') => handler e s'
    end.

(** [try { body } finally { fin }]. *)
Definition tryFinally {S A} (body : Async S A) (fin : Async S unit)
  : Async S A :=
  fun s =>
    match body s with
    | (r, s') =>
        match fin s' with
        | (Fulfilled _, s'') => (r, s'')
        | (Rejected e, s'') => (Rejected e, s'')
        end
    end.

Definition modify {S} (f : S -> S) : Async S unit := fun s => (Fulfilled tt, f s).

Declare Scope async_scope.
Delimit Scope async_scope with async.
Notation "x <- m ;; k" := (bind m (fun x => k))
  (at level 61, m at next level, right associativity) : async_scope.
Notation "m ;; k" := (bind m (fun _ => k))
  (at level 61, right associativity) : async_scope.
Open Scope async_scope.

(* ================================================================== *)
(** ** The part of the [@google/genai] SDK the service uses *)

Module GenAI.

Record Blob : Type := mkBlob {
  data : option string;
  mimeType : option string
}.

Record Part : Type := mkPart {
  inlineData : option Blob;
  text : option string
}.

Record Content : Type := mkContent {
  parts : option (list Part)
}.

Record Candidate : Type := mkCandidate {
  content : option Content
}.

Record GenerateContentResponse : Type := mkResponse {
  candidates : option (list Candidate)
}.

Inductive Modality : Type := IMAGE | TEXT | AUDIO.

Record GenerateContentConfig : Type := mkConfig {
  responseModalities : list Modality
}.

Record GenerateContentParameters : Type := mkParams {
  model : string;
  contents : Content;
  config : option GenerateContentConfig
}.

(** A client object, once [new GoogleGenAI({ apiKey })] has built it: it
    keeps the key it was given. *)
Record GoogleGenAI : Type := mkClient {
  apiKey : value
}.

(** One outbound call: the client it was made on and its parameters. *)
Definition Call : Type := (GoogleGenAI * GenerateContentParameters)%type.

(** What a call of [generateContent] settles to, as far as one invocation
    can observe it. *)
Definition Transport : Type :=
  GoogleGenAI -> GenerateContentParameters -> completion GenerateContentResponse.

(** The SDK is not part of the sources; it is taken as it behaves.
    [constructorThrows key] is what [new GoogleGenAI({ apiKey: key })]
    throws, if it throws; [generateContent] is what a call on a client
    settles to; [reachesNetwork] tells whether that call got as far as a
    request to the remote endpoint, or was settled by the SDK before. *)
Record Sdk : Type := mkSdk {
  constructorThrows : value -> option thrown;
  generateContent : Transport;
  reachesNetwork : GoogleGenAI -> GenerateContentParameters -> bool
}.

End GenAI.

Import GenAI.

(** What the service functions act on: the calls of [generateContent]
    they made, and the diagnostic console. *)
Record World : Type := mkWorld {
  network : list Call;
  console : list (string * thrown)
}.

(** [await ai.models.generateContent(params)]. *)
Definition models_generateContent (remote : Transport)
    (ai : GoogleGenAI) (params : GenerateContentParameters)
  : Async World GenerateContentResponse :=
  fun w =>
    (remote ai params,
     {| network := (network w ++ [(ai, params)])%list; console := console w |}).

(** [new GoogleGenAI({ apiKey: key })]: the client, or what the
    constructor throws. *)
Definition newGoogleGenAI (sdk : Sdk) (key : value) : Async World GoogleGenAI :=
  match constructorThrows sdk key with
  | Some e => throw e
  | None => ret (mkClient key)
  end.

(** The calls on record that reached the network. *)
Definition sentRequests (sdk : Sdk) (w : World) : list Call :=
  filter (fun call => reachesNetwork sdk (fst call) (snd call)) (network w).

(** [console.error(label, error)]. *)
Definition console_error (label : string) (error : thrown) : Async World unit :=
  modify (fun w =>
    {| network := network w; console := (console w ++ [(label, error)])%list |}).

(** [response.candidates?.[0]?.content?.parts || []]. *)
Definition firstCandidateParts (response : GenerateContentResponse) : list Part :=
  match candidates response with
  | Some (c :: _) =>
      match content c with
      | Some ct =>
          match parts ct with
          | Some ps => ps
          | None => []
          end
      | None => []
      end
  | _ => []
  end.

(** The [for (const part of ...)] loop: [Some v] when the loop body
    returned [v], [None] when the loop ran to its end. *)
Fixpoint forParts (ps : list Part) : option value :=
  match ps with
  | [] => None
  | part :: rest =>
      match inlineData part with
      | Some blob => Some (ofOptional (data blob))
      | None => forParts rest
      end
  end.

Definition e_acute : string := String "233"%char EmptyString.

Definition unknownErrorMessage : string :=
  "An unknown error occurred while communicating with the API.".

(* ------------------------------------------------------------------ *)
(** *** [editImageWithPrompt] with the key passed by the caller
    (the first version of the service file, with four parameters) *)

Module ServiceExplicitKey.
Section WithSdk.
Variable sdk : Sdk.

Definition missingKeyMessage : string :=
  "Cl" ++ e_acute ++ " API manquante. Veuillez configurer votre cl" ++ e_acute
  ++ " dans App.tsx ou via l'interface.".

Definition editImageWithPrompt
    (base64ImageData mimeType prompt : string) (apiKey : value)
  : Async World value :=
  if negb (truthy apiKey) then throw (ErrorObj missingKeyMessage)
  else
    ai <- newGoogleGenAI sdk apiKey ;;
    let imagePart :=
      mkPart (Some (mkBlob (Some base64ImageData) (Some mimeType))) None in
    let textPart := mkPart None (Some prompt) in
    tryCatch
      (response <- models_generateContent (generateContent sdk) ai
                     {| model := "gemini-2.5-flash-image";
                        contents := mkContent (Some [imagePart; textPart]);
                        config := None |} ;;
       match forParts (firstCandidateParts response) with
       | Some v => ret v
       | None => ret Null
       end)
      (fun error =>
         console_error "Error calling AI API:" error ;;
         match error with
         | ErrorObj message => throw (ErrorObj ("API Error: " ++ message))
         | NonError _ => throw (ErrorObj unknownErrorMessage)
         end).

End WithSdk.
End ServiceExplicitKey.

(* ------------------------------------------------------------------ *)
(** *** [editImageWithPrompt] with the key of the process environment
    (the second version, which imports [Modality]) *)

Module ServiceEnvKey.
Section WithSdk.
Variable sdk : Sdk.
(** [process.env.API_KEY]. *)
Variable env_API_KEY : value.

Definition editImageWithPrompt (base64ImageData mimeType prompt : string)
  : Async World value :=
  ai <- newGoogleGenAI sdk env_API_KEY ;;
  let imagePart :=
    mkPart (Some (mkBlob (Some base64ImageData) (Some mimeType))) None in
  let textPart := mkPart None (Some prompt) in
  tryCatch
    (response <- models_generateContent (generateContent sdk) ai
                   {| model := "gemini-2.5-flash-image";
                      contents := mkContent (Some [imagePart; textPart]);
                      config := Some (mkConfig [IMAGE]) |} ;;
     match forParts (firstCandidateParts response) with
     | Some v => ret v
     | None => ret Null
     end)
    (fun error =>
       console_error "Error calling Gemini API:" error ;;
       match error with
       | ErrorObj message => throw (ErrorObj ("API Error: " ++ message))
       | NonError _ => throw (ErrorObj unknownErrorMessage)
       end).

End WithSdk.
End ServiceEnvKey.

(* ------------------------------------------------------------------ *)
(** *** [editImageWithPrompt] with the local constant, then the environment
    (the third version, which declares [LOCAL_API_KEY]) *)

Module ServiceLocalKey.
Section WithSdk.
Variable sdk : Sdk.
(** The constant [LOCAL_API_KEY] at the top of the file, whose literal
    the user is told to fill in; taken as a parameter. *)
Variable LOCAL_API_KEY : string.
(** [process.env.API_KEY]. *)
Variable env_API_KEY : value.

Definition missingKeyMessage : string :=
  "Cl" ++ e_acute ++ " API manquante. Veuillez ouvrir 'services/geminiService.ts' et coller votre cl"
  ++ e_acute ++ " dans la variable LOCAL_API_KEY tout en haut du fichier.".

Definition editImageWithPrompt (base64ImageData mimeType prompt : string)
  : Async World value :=
  let apiKey := Js.or (Str LOCAL_API_KEY) env_API_KEY in
  if negb (truthy apiKey) then throw (ErrorObj missingKeyMessage)
  else
    ai <- newGoogleGenAI sdk apiKey ;;
    let imagePart :=
      mkPart (Some (mkBlob (Some base64ImageData) (Some mimeType))) None in
    let textPart := mkPart None (Some prompt) in
    tryCatch
      (response <- models_generateContent (generateContent sdk) ai
                     {| model := "gemini-2.5-flash-image";
                        contents := mkContent (Some [imagePart; textPart]);
                        config := None |} ;;
       match forParts (firstCandidateParts response) with
       | Some v => ret v
       | None => ret Null
       end)
      (fun error =>
         console_error "Error calling AI API:" error ;;
         match error with
         | ErrorObj message => throw (ErrorObj ("API Error: " ++ message))
         | NonError _ => throw (ErrorObj unknownErrorMessage)
         end).

End WithSdk.
End ServiceLocalKey.

(* ------------------------------------------------------------------ *)
(** *** The three versions side by side *)

Inductive Version : Type := ExplicitKey | EnvKey | LocalKey.

(** Where a key can come from: the argument of the caller, the constant
    [LOCAL_API_KEY], and [process.env.API_KEY]. *)
Record KeySources : Type := mkKeySources {
  explicitKey : value;
  localKey : string;
  envKey : value
}.

Definition editImageWithPrompt (v : Version) (sdk : Sdk)
    (k : KeySources) (base64ImageData mimeType prompt : string)
  : Async World value :=
  match v with
  | ExplicitKey =>
      ServiceExplicitKey.editImageWithPrompt sdk
        base64ImageData mimeType prompt (explicitKey k)
  | EnvKey =>
      ServiceEnvKey.editImageWithPrompt sdk (envKey k)
        base64ImageData mimeType prompt
  | LocalKey =>
      ServiceLocalKey.editImageWithPrompt sdk (localKey k) (envKey k)
        base64ImageData mimeType prompt
  end.

(** The value each version hands to [new GoogleGenAI]. *)
Definition resolvedKey (v : Version) (k : KeySources) : value :=
  match v with
  | ExplicitKey => explicitKey k
  | EnvKey => envKey k
  | LocalKey => Js.or (Str (localKey k)) (envKey k)
  end.

(** Whether the version tests its key before it builds the client. *)
Definition guardsKey (v : Version) : bool :=
  match v with
  | ExplicitKey => true
  | EnvKey => false
  | LocalKey => true
  end.

Definition missingKeyMessage (v : Version) : string :=
  match v with
  | ExplicitKey => ServiceExplicitKey.missingKeyMessage
  | EnvKey => EmptyString
  | LocalKey => ServiceLocalKey.missingKeyMessage
  end.

(** Whether the version declares the response modality in its request. *)
Definition declaresModality (v : Version) : bool :=
  match v with
  | ExplicitKey => false
  | EnvKey => true
  | LocalKey => false
  end.

(** The label of the diagnostic trace of the version. *)
Definition consoleLabel (v : Version) : string :=
  match v with
  | ExplicitKey => "Error calling AI API:"
  | EnvKey => "Error calling Gemini API:"
  | LocalKey => "Error calling AI API:"
  end.

(** Whether the version stops at its key test. *)
Definition keyMissing (v : Version) (k : KeySources) : bool :=
  guardsKey v && negb (truthy (resolvedKey v k)).


(** A stand-in for the SDK that checks nothing: it builds a client for
    any key and hands every call to [remote]. *)
Definition mockSdk (remote : Transport) : Sdk :=
  {| constructorThrows := fun _ => None;
     generateContent := remote;
     reachesNetwork := fun _ _ => true |}.

(** A stand-in for the SDK that checks the key: the constructor throws
    for a key that is [null] or [undefined], a call on a client with an
    empty key is refused before anything is sent, and every other call is
    handed to [remote]. *)
Definition keyCheckingSdk (remote : Transport) : Sdk :=
  {| constructorThrows :=
       fun key =>
         match key with
         | Str _ => None
         | Null | Undefined =>
             Some (ErrorObj "An API Key must be set when running in a browser")
         end;
     generateContent :=
       fun ai params =>
         if truthy (apiKey ai) then remote ai params
         else Rejected (ErrorObj "API key not valid. Please pass a valid API key.");
     reachesNetwork := fun ai _ => truthy (apiKey ai) |}.

(** The precedence chain in the words of the specification: the explicit
    value, then the local constant, then the environment. *)
Definition specResolvedKey (k : KeySources) : value :=
  Js.or (explicitKey k) (Js.or (Str (localKey k)) (envKey k)).

(** The request of the specification: the image with its MIME type, then
    the instruction, for the fixed model. *)
Definition editRequest (withModality : bool)
    (base64ImageData mimeType prompt : string) : GenerateContentParameters :=
  {| model := "gemini-2.5-flash-image";
     contents :=
       mkContent
         (Some [ mkPart (Some (mkBlob (Some base64ImageData) (Some mimeType))) None;
                 mkPart None (Some prompt) ]);
     config := if withModality then Some (mkConfig [IMAGE]) else None |}.

Definition emptyWorld : World := {| network := []; console := [] |}.

(* ================================================================== *)
(** ** [App.tsx]: the prompt tokens and the submit handler *)

Module App.

Record ImageFile : Type := mkImageFile {
  base64 : string;
  mimeType : string;
  name : string
}.

(** The [useState] cells of the component. *)
Record AppState : Type := mkAppState {
  originalImage : option ImageFile;
  editedImage : option string;
  prompt : string;
  isLoading : bool;
  error : option string;
  isDragging : bool;
  showOriginal : bool
}.

(** The initial values of the cells. *)
Definition initialState : AppState :=
  mkAppState None None EmptyString false None false false.

Definition setEditedImage (v : option string) (st : AppState) : AppState :=
  mkAppState (originalImage st) v (prompt st) (isLoading st) (error st)
             (isDragging st) (showOriginal st).

Definition setPrompt (f : string -> string) (st : AppState) : AppState :=
  mkAppState (originalImage st) (editedImage st) (f (prompt st)) (isLoading st)
             (error st) (isDragging st) (showOriginal st).

Definition setIsLoading (b : bool) (st : AppState) : AppState :=
  mkAppState (originalImage st) (editedImage st) (prompt st) b (error st)
             (isDragging st) (showOriginal st).

Definition setError (e : option string) (st : AppState) : AppState :=
  mkAppState (originalImage st) (editedImage st) (prompt st) (isLoading st) e
             (isDragging st) (showOriginal st).

(** The updater [addPromptToken] passes to [setPrompt]. *)
Definition promptWithToken (token prev : string) : string :=
  let trimmed := trim prev in
  if (String.length trimmed =? 0)%nat then token
  else if includes (toLowerCase trimmed) (toLowerCase token) then prev
  else trimmed ++ ", " ++ token.

Definition addPromptToken (token : string) (st : AppState) : AppState :=
  setPrompt (promptWithToken token) st.

(** The page: the component state, the world of the service, and a
    record of the invocations of [editImageWithPrompt]. *)
Record Page : Type := mkPage {
  ui : AppState;
  world : World;
  serviceCalls : list (string * string * string)
}.

Definition update (f : AppState -> AppState) : Async Page unit :=
  modify (fun pg => mkPage (f (ui pg)) (world pg) (serviceCalls pg)).

(** [`${v}`] for a value of the service's result type. *)
Definition toString (v : value) : string :=
  match v with
  | Str s => s
  | Null => "null"
  | Undefined => "undefined"
  end.

(** [!originalImage || !prompt || isLoading]. *)
Definition submitGuard (st : AppState) : bool :=
  match originalImage st with None => true | Some _ => false end
  || negb (truthy (Str (prompt st)))
  || isLoading st.

Section WithService.
(** The imported [editImageWithPrompt], called with three arguments. *)
Variable editImageWithPrompt : string -> string -> string -> Async World value.

Definition callService (b m p : string) : Async Page value :=
  fun pg =>
    match editImageWithPrompt b m p (world pg) with
    | (r, w') =>
        (r, mkPage (ui pg) w' (serviceCalls pg ++ [(b, m, p)])%list)
    end.

Definition handleSubmit : Async Page unit :=
  fun pg =>
    let st := ui pg in
    if submitGuard st then ret tt pg
    else
      match originalImage st with
      | None => ret tt pg
      | Some img =>
          (update (setIsLoading true) ;;
           update (setError None) ;;
           update (setEditedImage None) ;;
           tryFinally
             (tryCatch
                (generatedImage <- callService (base64 img) (mimeType img) (prompt st) ;;
                 if truthy generatedImage
                 then update (setEditedImage
                                (Some ("data:image/png;base64," ++ toString generatedImage)))
                 else throw (ErrorObj
                        "The model did not return an image. Try a different prompt."))
                (fun err =>
                   let errorMessage :=
                     match err with
                     | ErrorObj message => message
                     | NonError _ => "An unknown error occurred."
                     end in
                   update (setError (Some ("Generation failed: " ++ errorMessage)))))
             (update (setIsLoading false))) pg
      end.

End WithService.

End App.

(* ================================================================== *)
(** ** The rest of [App.tsx]: files, drag and drop, download, rendering *)

(** The array and string methods the other handlers use. *)
Module JsText.

(** [s.startsWith(t)]. *)
Definition startsWith (s t : string) : bool := prefix t s.

(** [s.split(sep)] for a separator of one character. *)
Fixpoint split (sep : ascii) (s : string) : list string :=
  match s with
  | EmptyString => [EmptyString]
  | String c s' =>
      if Ascii.eqb c sep then EmptyString :: split sep s'
      else match split sep s' with
           | [] => [String c EmptyString]
           | piece :: pieces => String c piece :: pieces
           end
  end.

(** [pieces.slice(0, -1)]: all but the last element. *)
Definition sliceButLast (pieces : list string) : list string := removelast pieces.

(** [pieces.join(sep)]. *)
Fixpoint join (sep : string) (pieces : list string) : string :=
  match pieces with
  | [] => EmptyString
  | piece :: rest =>
      match rest with
      | [] => piece
      | _ :: _ => piece ++ sep ++ join sep rest
      end
  end.

(** A cell of type [string | null] read as a value. *)
Definition ofNullable (o : option string) : value :=
  match o with
  | Some s => Str s
  | None => Null
  end.

End JsText.

(** The browser objects the handlers receive and create. *)
Module Dom.

(** A [File]: its MIME type, its name, and what a reader would find in it. *)
Record File : Type := mkFile {
  type : string;
  name : string;
  bytes : string
}.

(** A drag event: its two flags and [e.dataTransfer.files]. *)
Record DragEvent : Type := mkDragEvent {
  defaultPrevented : bool;
  propagationStopped : bool;
  files : option (list File)
}.

(** An [<a>] element with the two attributes the component sets. *)
Record Anchor : Type := mkAnchor {
  href : string;
  download : string
}.

End Dom.

Module Component.

Import JsText.
Import App.

Definition STYLE_PRESETS : list string :=
  [ "Cyberpunk"; "Aquarelle"; "Pixel Art"; "Dessin au crayon";
    "Photo r" ++ e_acute ++ "aliste"; "Cartoon 3D"; "Origami"; "Vapeurwave";
    "Noir et blanc"; "Studio Ghibli" ].

Definition ENHANCEMENTS : list string :=
  [ String "201"%char "clairage cin" ++ e_acute ++ "matique";
    "Haute r" ++ e_acute ++ "solution 4k"; "Couleurs vives";
    "Arri" ++ String "232"%char "re-plan flou"; "HDR"; "Minimaliste" ].

Definition setOriginalImage (v : option ImageFile) (st : AppState) : AppState :=
  mkAppState v (editedImage st) (prompt st) (isLoading st) (error st)
             (isDragging st) (showOriginal st).

Definition setIsDragging (b : bool) (st : AppState) : AppState :=
  mkAppState (originalImage st) (editedImage st) (prompt st) (isLoading st)
             (error st) b (showOriginal st).

Definition setShowOriginal (b : bool) (st : AppState) : AppState :=
  mkAppState (originalImage st) (editedImage st) (prompt st) (isLoading st)
             (error st) (isDragging st) b.

(** The page in its browser: the files handed to [fileToBase64], the
    children the component appended to [document.body], and the links it
    clicked. *)
Record Browser : Type := mkBrowser {
  page : Page;
  fileReads : list Dom.File;
  body : list Dom.Anchor;
  clicks : list Dom.Anchor
}.

Definition initialBrowser : Browser :=
  mkBrowser (mkPage initialState emptyWorld []) [] [] [].

(** A computation of the page, run in the browser. *)
Definition onPage {A} (m : Async Page A) : Async Browser A :=
  fun b =>
    match m (page b) with
    | (r, pg) => (r, mkBrowser pg (fileReads b) (body b) (clicks b))
    end.

Definition updateUi (f : AppState -> AppState) : Async Browser unit :=
  onPage (update f).

(** [document.body.appendChild(link)]. *)
Definition appendChild (link : Dom.Anchor) : Async Browser unit :=
  modify (fun b => mkBrowser (page b) (fileReads b) (body b ++ [link])%list (clicks b)).

(** [link.click()]. *)
Definition click (link : Dom.Anchor) : Async Browser unit :=
  modify (fun b => mkBrowser (page b) (fileReads b) (body b) (clicks b ++ [link])%list).

(** [document.body.removeChild(link)], for the child appended last. *)
Definition removeChild (link : Dom.Anchor) : Async Browser unit :=
  modify (fun b => mkBrowser (page b) (fileReads b) (removelast (body b)) (clicks b)).

(** [originalImage?.name.split('.').slice(0, -1).join('.') || 'image']. *)
Definition originalName (original : option ImageFile) : value :=
  Js.or
    (match original with
     | Some img => Str (join "." (sliceButLast (split "."%char (name img))))
     | None => Undefined
     end)
    (Str "image").

Definition handleDownload : Async Browser unit :=
  fun b =>
    let st := ui (page b) in
    if negb (truthy (ofNullable (editedImage st))) then ret tt b
    else
      match editedImage st with
      | None => ret tt b
      | Some edited =>
          let link :=
            Dom.mkAnchor edited (toString (originalName (originalImage st)) ++ "-edited.png") in
          (appendChild link ;;
           click link ;;
           removeChild link) b
      end.

(** The [useMemo] value [originalImageSrc]. *)
Definition originalImageSrc (st : AppState) : option string :=
  match originalImage st with
  | None => None
  | Some img => Some ("data:" ++ mimeType img ++ ";base64," ++ base64 img)
  end.

(** What the [return] of the component puts on the screen. *)
Record View : Type := mkView {
  sourceImage : option string;
  spinner : bool;
  errorBox : option string;
  resultImage : option string;
  comparisonBadge : bool;
  resultActions : bool;
  placeholder : bool;
  presetsDisabled : bool;
  textareaDisabled : bool;
  clearButton : bool;
  generateDisabled : bool
}.

Definition render (st : AppState) : View :=
  let edited := truthy (ofNullable (editedImage st)) in
  let resultBlock := edited || (isLoading st && edited) in
  {| sourceImage :=
       if truthy (ofNullable (originalImageSrc st)) then originalImageSrc st else None;
     spinner := isLoading st && negb edited;
     errorBox := if truthy (ofNullable (error st)) then error st else None;
     resultImage :=
       if resultBlock
       then (if showOriginal st && truthy (ofNullable (originalImageSrc st))
             then originalImageSrc st
             else editedImage st)
       else None;
     comparisonBadge := resultBlock && showOriginal st;
     resultActions := resultBlock && negb (isLoading st);
     placeholder :=
       negb (isLoading st) && negb (truthy (ofNullable (error st))) && negb edited;
     presetsDisabled :=
       match originalImage st with None => true | Some _ => false end || isLoading st;
     textareaDisabled :=
       match originalImage st with None => true | Some _ => false end || isLoading st;
     clearButton := truthy (Str (prompt st));
     generateDisabled :=
       match originalImage st with None => true | Some _ => false end
       || negb (truthy (Str (prompt st)))
       || isLoading st |}.

(** The [return] of the earlier version of the component, which has no
    presets, no comparison and no download. *)
Module Earlier.

Definition render (st : AppState) : View :=
  let edited := truthy (ofNullable (editedImage st)) in
  {| sourceImage :=
       if truthy (ofNullable (originalImageSrc st)) then originalImageSrc st else None;
     spinner := isLoading st && negb edited;
     errorBox := if truthy (ofNullable (error st)) then error st else None;
     resultImage := if edited && negb (isLoading st) then editedImage st else None;
     comparisonBadge := false;
     resultActions := false;
     placeholder :=
       negb (isLoading st) && negb (truthy (ofNullable (error st))) && negb edited;
     presetsDisabled := true;
     textareaDisabled :=
       match originalImage st with None => true | Some _ => false end || isLoading st;
     clearButton := false;
     generateDisabled :=
       match originalImage st with None => true | Some _ => false end
       || negb (truthy (Str (prompt st)))
       || isLoading st |}.

End Earlier.

Section WithServices.
(** The imported [editImageWithPrompt], called with three arguments. *)
Variable editImageWithPrompt : string -> string -> string -> Async World value.
(** The imported [fileToBase64] of [utils/fileUtils], which is not part of
    the sources at hand: what it settles to for each file. *)
Variable fileToBase64 : Dom.File -> completion string.

(** [await fileToBase64(file)]. *)
Definition readFile (file : Dom.File) : Async Browser string :=
  fun b =>
    (fileToBase64 file,
     mkBrowser (page b) (fileReads b ++ [file])%list (body b) (clicks b)).

Definition handleFileChange (file : option Dom.File) : Async Browser unit :=
  match file with
  | Some f =>
      if startsWith (Dom.type f) "image/"
      then
        updateUi (setError None) ;;
        updateUi (setEditedImage None) ;;
        updateUi (setIsLoading true) ;;
        tryFinally
          (tryCatch
             (base64 <- readFile f ;;
              updateUi (setOriginalImage
                          (Some (mkImageFile base64 (Dom.type f) (Dom.name f)))))
             (fun err =>
                updateUi (setError (Some "Failed to load image. Please try another one.")) ;;
                updateUi (setOriginalImage None)))
          (updateUi (setIsLoading false))
      else
        updateUi (setError (Some "Please select a valid image file.")) ;;
        updateUi (setOriginalImage None)
  | None => ret tt
  end.

(** [handleDragEvent]: the event comes back with its flags set. *)
Definition handleDragEvent (e : Dom.DragEvent) (isOver : bool)
  : Async Browser Dom.DragEvent :=
  updateUi (setIsDragging isOver) ;;
  ret (Dom.mkDragEvent true true (Dom.files e)).

(** [handleDrop]; the promise of [handleFileChange] is not awaited, and is
    followed here to its end. *)
Definition handleDrop (e : Dom.DragEvent) : Async Browser Dom.DragEvent :=
  e' <- handleDragEvent e false ;;
  match Dom.files e' with
  | Some (first :: _) => handleFileChange (Some first) ;; ret e'
  | _ => ret e'
  end.

(** [onFileInputChange], on [e.target.files]. *)
Definition onFileInputChange (files : option (list Dom.File)) : Async Browser unit :=
  match files with
  | Some (first :: _) => handleFileChange (Some first)
  | _ => ret tt
  end.

(** The handlers the rendered elements are wired to. *)
Inductive Event : Type :=
| FileInput (files : option (list Dom.File))
| DragOver (e : Dom.DragEvent)
| DragLeave (e : Dom.DragEvent)
| Drop (e : Dom.DragEvent)
| RemoveImage
| Preset (token : string)
| TypePrompt (text : string)
| ClearPrompt
| Generate
| HoldOriginal (held : bool)
| Download.

Definition dispatch (ev : Event) : Async Browser unit :=
  match ev with
  | FileInput files => onFileInputChange files
  | DragOver e => handleDragEvent e true ;; ret tt
  | DragLeave e => handleDragEvent e false ;; ret tt
  | Drop e => handleDrop e ;; ret tt
  | RemoveImage => updateUi (setOriginalImage None)
  | Preset token => updateUi (addPromptToken token)
  | TypePrompt text => updateUi (setPrompt (fun _ => text))
  | ClearPrompt => updateUi (setPrompt (fun _ => EmptyString))
  | Generate => onPage (handleSubmit editImageWithPrompt)
  | HoldOriginal held => updateUi (setShowOriginal held)
  | Download => handleDownload
  end.

(** One handler after the other, each run to its end. *)
Fixpoint runEvents (evs : list Event) (b : Browser) : Browser :=
  match evs with
  | [] => b
  | ev :: rest => runEvents rest (snd (dispatch ev b))
  end.

End WithServices.

(** What holds of the browser between two handlers: nothing is loading,
    a loaded original image has an image type, a displayed result is a
    PNG data URL around non-empty data, the service was only ever invoked
    with an image type and a non-empty instruction, and no link is left in
    [document.body]. *)
Definition AtRest (b : Browser) : Prop :=
  let st := ui (page b) in
  isLoading st = false
  /\ (forall img, originalImage st = Some img ->
                  startsWith (mimeType img) "image/" = true)
  /\ (forall shown, editedImage st = Some shown ->
                    exists c s, shown = "data:image/png;base64," ++ String c s)
  /\ Forall (fun call => startsWith (snd (fst call)) "image/" = true
                         /\ snd call <> EmptyString)
            (serviceCalls (page b))
  /\ body b = [].

End Component.

(* ================================================================== *)
(** * Properties *)

Import App.

(** ** The service: one run, spelled out *)

Section ServiceRuns.
Variable sdk : Sdk.
Variables (v : Version) (k : KeySources).
Variables (image mime instruction : string) (w : World).

Let run := editImageWithPrompt v sdk k image mime instruction w.
Let ai := mkClient (resolvedKey v k).
Let request := editRequest (declaresModality v) image mime instruction.
Let sent := {| network := (network w ++ [(ai, request)])%list;
               console := console w |}.

(** A version that tests its key and finds none throws at once. *)
Lemma run_without_key :
  keyMissing v k = true ->
  run = (Rejected (ErrorObj (missingKeyMessage v)), w).
Proof.
  unfold run, keyMissing, editImageWithPrompt.
  destruct v; simpl; intros H; try discriminate.
  - unfold ServiceExplicitKey.editImageWithPrompt.
    rewrite H. reflexivity.
  - unfold ServiceLocalKey.editImageWithPrompt.
    rewrite H. reflexivity.
Qed.

(** What the constructor throws leaves the function as it is: the
    constructor is called before the [try]. *)
Lemma run_constructor_throws (e : thrown) :
  keyMissing v k = false ->
  constructorThrows sdk (resolvedKey v k) = Some e ->
  run = (Rejected e, w).
Proof.
  unfold run, keyMissing, editImageWithPrompt.
  destruct v; simpl; intros H Hthrows.
  - apply negb_false_iff in H.
    unfold ServiceExplicitKey.editImageWithPrompt.
    rewrite H. simpl. unfold bind, newGoogleGenAI. now rewrite Hthrows.
  - unfold ServiceEnvKey.editImageWithPrompt.
    unfold bind, newGoogleGenAI. now rewrite Hthrows.
  - apply negb_false_iff in H.
    unfold ServiceLocalKey.editImageWithPrompt.
    rewrite H. simpl. unfold bind, newGoogleGenAI. now rewrite Hthrows.
Qed.

(** Otherwise the call is made once, and what it settles to decides. *)
Lemma run_with_key :
  keyMissing v k = false ->
  constructorThrows sdk (resolvedKey v k) = None ->
  run =
    match generateContent sdk ai request with
    | Fulfilled response =>
        (Fulfilled (match forParts (firstCandidateParts response) with
                    | Some data => data
                    | None => Null
                    end), sent)
    | Rejected e =>
        (Rejected (ErrorObj (match e with
                             | ErrorObj message => "API Error: " ++ message
                             | NonError _ => unknownErrorMessage
                             end)),
         {| network := network sent;
            console := (console w ++ [(consoleLabel v, e)])%list |})
    end.
Proof.
  unfold run, ai, request, sent, keyMissing, editImageWithPrompt.
  destruct v; simpl; intros H Hbuilt.
  - apply negb_false_iff in H.
    unfold ServiceExplicitKey.editImageWithPrompt.
    rewrite H. simpl.
    unfold bind at 1. unfold newGoogleGenAI. rewrite Hbuilt.
    unfold tryCatch, bind, models_generateContent, editRequest, ret. simpl.
    destruct (generateContent sdk _ _) as [response | e].
    + destruct (forParts (firstCandidateParts response)); reflexivity.
    + destruct e; reflexivity.
  - unfold ServiceEnvKey.editImageWithPrompt.
    unfold bind at 1. unfold newGoogleGenAI. rewrite Hbuilt.
    unfold tryCatch, bind, models_generateContent, editRequest, ret. simpl.
    destruct (generateContent sdk _ _) as [response | e].
    + destruct (forParts (firstCandidateParts response)); reflexivity.
    + destruct e; reflexivity.
  - apply negb_false_iff in H.
    unfold ServiceLocalKey.editImageWithPrompt.
    rewrite H. simpl.
    unfold bind at 1. unfold newGoogleGenAI. rewrite Hbuilt.
    unfold tryCatch, bind, models_generateContent, editRequest, ret. simpl.
    destruct (generateContent sdk _ _) as [response | e].
    + destruct (forParts (firstCandidateParts response)); reflexivity.
    + destruct e; reflexivity.
Qed.

End ServiceRuns.

(** The loop stops at the first part that carries inline data. *)
Lemma forParts_first (pre post : list Part) (part : Part) (blob : Blob) :
  Forall (fun p => inlineData p = None) pre ->
  inlineData part = Some blob ->
  forParts (pre ++ part :: post)%list = Some (ofOptional (data blob)).
Proof.
  intros Hpre Hpart. induction Hpre as [| p pre Hp _ IH]; simpl.
  - now rewrite Hpart.
  - now rewrite Hp.
Qed.

(** Without such a part the loop runs to its end. *)
Lemma forParts_none (ps : list Part) :
  Forall (fun p => inlineData p = None) ps -> forParts ps = None.
Proof.
  induction 1 as [| p ps Hp _ IH]; simpl; [reflexivity | now rewrite Hp].
Qed.

(** ** The claims about [editImageWithPrompt] *)





(** C2.  When the service answers with a response whose first candidate
    has, among its content parts, a part with inline data, the function
    resolves to the data of the first such part, as received; the parts
    after it and the candidates after the first play no role. *)
Theorem first_inline_data_is_returned :
  forall sdk v k image mime instruction w
         (pre post : list Part) (part : Part) (blob : Blob)
         (laterCandidates : list Candidate),
    keyMissing v k = false ->
    constructorThrows sdk (resolvedKey v k) = None ->
    (forall ai params,
        generateContent sdk ai params
        = Fulfilled
            (mkResponse
               (Some (mkCandidate (Some (mkContent (Some (pre ++ part :: post)%list)))
                        :: laterCandidates)))) ->
    Forall (fun p => inlineData p = None) pre ->
    inlineData part = Some blob ->
    fst (editImageWithPrompt v sdk k image mime instruction w)
    = Fulfilled (ofOptional (data blob)).
Proof.
  intros sdk v k image mime instruction w pre post part blob later
         Hkey Hbuilt Hremote Hpre Hpart.
  rewrite run_with_key by assumption.
  rewrite Hremote.
  unfold firstCandidateParts. cbn [candidates content parts].
  now rewrite (forParts_first pre post part blob Hpre Hpart).
Qed.

Lemma first_inline_data_is_returned_witness :
  fst (editImageWithPrompt LocalKey
         (mockSdk
            (fun _ _ =>
               Fulfilled
                 (mkResponse
                    (Some [ mkCandidate
                              (Some (mkContent
                                 (Some [ mkPart None (Some "Here is your image");
                                         mkPart (Some (mkBlob (Some "BBBB") (Some "image/png"))) None;
                                         mkPart (Some (mkBlob (Some "CCCC") (Some "image/png"))) None ])));
                            mkCandidate
                              (Some (mkContent
                                 (Some [ mkPart (Some (mkBlob (Some "DDDD") (Some "image/png"))) None ]))) ]))))
         (mkKeySources Undefined EmptyString (Str "K")) "AAAA" "image/png" "make it blue"
         emptyWorld)
  = Fulfilled (Str "BBBB").
Proof.
  apply (first_inline_data_is_returned _ LocalKey
           (mkKeySources Undefined EmptyString (Str "K")) "AAAA" "image/png"
           "make it blue" emptyWorld
           [ mkPart None (Some "Here is your image") ]
           [ mkPart (Some (mkBlob (Some "CCCC") (Some "image/png"))) None ]
           (mkPart (Some (mkBlob (Some "BBBB") (Some "image/png"))) None)
           (mkBlob (Some "BBBB") (Some "image/png"))
           [ mkCandidate
               (Some (mkContent
                  (Some [ mkPart (Some (mkBlob (Some "DDDD") (Some "image/png"))) None ]))) ]).
  - reflexivity.
  - reflexivity.
  - intros ai params. reflexivity.
  - repeat constructor.
  - reflexivity.
Defined.

(** C3.  When the call completes and the parts of the first candidate of
    the response (none at all when the response has no candidate, content
    or parts) carry no inline data, the function resolves to [null]; it
    does not throw. *)
Theorem no_inline_data_resolves_to_null :
  forall sdk v k image mime instruction w response,
    keyMissing v k = false ->
    constructorThrows sdk (resolvedKey v k) = None ->
    (forall ai params, generateContent sdk ai params = Fulfilled response) ->
    Forall (fun p => inlineData p = None) (firstCandidateParts response) ->
    fst (editImageWithPrompt v sdk k image mime instruction w)
    = Fulfilled Null.
Proof.
  intros sdk v k image mime instruction w response Hkey Hbuilt Hremote Hnone.
  rewrite run_with_key by assumption.
  rewrite Hremote. cbn [fst].
  now rewrite (forParts_none _ Hnone).
Qed.

Lemma no_inline_data_resolves_to_null_witness :
  fst (editImageWithPrompt EnvKey
         (mockSdk
            (fun _ _ =>
               Fulfilled
                 (mkResponse
                    (Some [ mkCandidate
                              (Some (mkContent
                                 (Some [ mkPart None (Some "I cannot edit this image") ]))) ]))))
         (mkKeySources Undefined EmptyString (Str "K")) "AAAA" "image/png" "make it blue"
         emptyWorld)
  = Fulfilled Null.
Proof.
  apply (no_inline_data_resolves_to_null _ EnvKey
           (mkKeySources Undefined EmptyString (Str "K")) "AAAA" "image/png"
           "make it blue" emptyWorld
           (mkResponse
              (Some [ mkCandidate
                        (Some (mkContent
                           (Some [ mkPart None (Some "I cannot edit this image") ]))) ]))).
  - reflexivity.
  - reflexivity.
  - intros ai params. reflexivity.
  - repeat constructor.
Defined.

(** C4, as amended.  Each version resolves its key from its own sources
    and no version consults all three.  The version with the key argument
    uses that argument alone and throws its missing-key error when it is
    empty or absent; the version with [LOCAL_API_KEY] uses the constant
    when it is not empty and the environment value otherwise, and throws
    its missing-key error when both are empty or absent; the version
    reading the environment has no test of its own and hands the
    environment value to the SDK as it is.  In every version the key so
    resolved is the one given to [new GoogleGenAI]: what the constructor
    throws is thrown on, and otherwise the call is made on a client that
    holds that key. *)
Theorem key_resolution_per_version :
  forall sdk k image mime instruction w,
    let run v := editImageWithPrompt v sdk k image mime instruction w in
    let calls v := network (snd (run v)) in
    let handed key v :=
      match constructorThrows sdk key with
      | Some e => run v = (Rejected e, w)
      | None =>
          exists params, calls v = (network w ++ [(mkClient key, params)])%list
      end in
    (if truthy (explicitKey k)
     then handed (explicitKey k) ExplicitKey
     else run ExplicitKey
          = (Rejected (ErrorObj ServiceExplicitKey.missingKeyMessage), w))
    /\ (let key := if truthy (Str (localKey k)) then Str (localKey k) else envKey k in
        if truthy key
        then handed key LocalKey
        else run LocalKey
             = (Rejected (ErrorObj ServiceLocalKey.missingKeyMessage), w))
    /\ handed (envKey k) EnvKey.
Proof.
  intros sdk k image mime instruction w run calls handed.
  assert (Hhanded : forall v, keyMissing v k = false -> handed (resolvedKey v k) v).
  { intros v Hkey. unfold handed, calls, run.
    destruct (constructorThrows sdk (resolvedKey v k)) as [e |] eqn:Hbuilt.
    - now apply run_constructor_throws.
    - rewrite run_with_key by assumption.
      destruct (generateContent sdk _ _); eexists; reflexivity. }
  split; [| split].
  - destruct (truthy (explicitKey k)) eqn:Hk.
    + apply (Hhanded ExplicitKey). unfold keyMissing. simpl. now rewrite Hk.
    + apply (run_without_key sdk ExplicitKey). unfold keyMissing. simpl.
      now rewrite Hk.
  - cbv zeta. fold (Js.or (Str (localKey k)) (envKey k)).
    destruct (truthy (Js.or (Str (localKey k)) (envKey k))) eqn:Hk.
    + apply (Hhanded LocalKey). unfold keyMissing. simpl. now rewrite Hk.
    + apply (run_without_key sdk LocalKey). unfold keyMissing. simpl.
      now rewrite Hk.
  - apply (Hhanded EnvKey). reflexivity.
Qed.

(** C4 as stated fails: the version that takes the key as an argument does
    not fall back on the environment.  The chain of the specification
    resolves to the environment value, yet the function throws its
    missing-key error and calls nothing. *)
Lemma explicit_version_ignores_environment :
  let k := mkKeySources Undefined EmptyString (Str "K") in
  specResolvedKey k = Str "K"
  /\ editImageWithPrompt ExplicitKey
       (keyCheckingSdk (fun _ _ => Fulfilled (mkResponse None)))
       k "AAAA" "image/png" "make it blue" emptyWorld
     = (Rejected (ErrorObj ServiceExplicitKey.missingKeyMessage), emptyWorld).
Proof. split; reflexivity. Qed.

(** A message with the context prefix is never the message itself. *)
Lemma prefixed_message_differs (message : string) :
  "API Error: " ++ message <> message.
Proof.
  intros H. apply (f_equal String.length) in H. simpl in H. lia.
Qed.

(** C5.  When the remote call fails, the function rejects with a new
    [Error]: its message is the message of the failure after the prefix
    ["API Error: "] when the failure is an [Error], and the fixed
    unknown-error message when it is not.  What the caller receives is
    never the failure itself. *)
Theorem remote_failure_is_wrapped :
  forall sdk v k image mime instruction w failure,
    keyMissing v k = false ->
    constructorThrows sdk (resolvedKey v k) = None ->
    (forall ai params, generateContent sdk ai params = Rejected failure) ->
    let outcome := fst (editImageWithPrompt v sdk k image mime instruction w) in
    outcome
    = Rejected
        (ErrorObj
           (match failure with
            | ErrorObj message => "API Error: " ++ message
            | NonError _ =>
                "An unknown error occurred while communicating with the API."
            end))
    /\ outcome <> Rejected failure.
Proof.
  intros sdk v k image mime instruction w failure Hkey Hbuilt Hremote outcome.
  assert (Hout : outcome
                 = Rejected
                     (ErrorObj
                        (match failure with
                         | ErrorObj message => "API Error: " ++ message
                         | NonError _ => unknownErrorMessage
                         end))).
  { unfold outcome. rewrite run_with_key by assumption.
    now rewrite Hremote. }
  split; [exact Hout |].
  rewrite Hout. destruct failure as [message | other]; intros H.
  - injection H as H. exact (prefixed_message_differs message H).
  - discriminate.
Qed.

Lemma remote_failure_is_wrapped_witness :
  let outcome :=
    fst (editImageWithPrompt ExplicitKey
           (mockSdk (fun _ _ => Rejected (ErrorObj "quota exceeded")))
           (mkKeySources (Str "K") EmptyString Undefined) "AAAA" "image/png" "make it blue"
           emptyWorld) in
  outcome = Rejected (ErrorObj "API Error: quota exceeded")
  /\ outcome <> Rejected (ErrorObj "quota exceeded").
Proof.
  apply (remote_failure_is_wrapped
           (mockSdk (fun _ _ => Rejected (ErrorObj "quota exceeded")))
           ExplicitKey (mkKeySources (Str "K") EmptyString Undefined) "AAAA" "image/png"
           "make it blue" emptyWorld (ErrorObj "quota exceeded")).
  - reflexivity.
  - reflexivity.
  - intros ai params. reflexivity.
Defined.

(** C7.  One invocation adds at most one call to the calls of
    [generateContent] on record, whether it resolves to an image, resolves
    to [null] or rejects; the requests that reach the network grow by
    those of the added calls that the SDK lets through, so by at most
    one. *)
Theorem at_most_one_network_call :
  forall sdk v k image mime instruction w,
  exists new,
    network (snd (editImageWithPrompt v sdk k image mime instruction w))
    = (network w ++ new)%list
    /\ List.length new <= 1
    /\ sentRequests sdk (snd (editImageWithPrompt v sdk k image mime instruction w))
       = (sentRequests sdk w
          ++ filter (fun call => reachesNetwork sdk (fst call) (snd call)) new)%list.
Proof.
  intros sdk v k image mime instruction w.
  assert (Hsent : forall new,
             network (snd (editImageWithPrompt v sdk k image mime instruction w))
             = (network w ++ new)%list ->
             sentRequests sdk (snd (editImageWithPrompt v sdk k image mime instruction w))
             = (sentRequests sdk w
                ++ filter (fun call => reachesNetwork sdk (fst call) (snd call)) new)%list).
  { intros new Hnew. unfold sentRequests. rewrite Hnew. apply filter_app. }
  cut (exists new,
          network (snd (editImageWithPrompt v sdk k image mime instruction w))
          = (network w ++ new)%list
          /\ List.length new <= 1).
  { intros [new [Hnew Hlen]]. exists new. auto. }
  clear Hsent.
  destruct (keyMissing v k) eqn:Hkey.
  - exists []. rewrite run_without_key by exact Hkey. cbn [snd].
    split; [now rewrite app_nil_r | auto].
  - destruct (constructorThrows sdk (resolvedKey v k)) as [e |] eqn:Hbuilt.
    + exists [].
      rewrite (run_constructor_throws sdk v k image mime instruction w e Hkey Hbuilt).
      cbn [snd]. split; [now rewrite app_nil_r | auto].
    + rewrite run_with_key by assumption.
      eexists. destruct (generateContent sdk _ _); cbn [snd network]; split;
        solve [reflexivity | simpl; lia].
Qed.

(** C8.  The calls an invocation adds are none when the version stops at
    its key test or the constructor throws, and otherwise exactly one,
    whose request names the model ['gemini-2.5-flash-image'] and holds two
    parts: the inline image data with its MIME type, then the instruction
    text.  The version reading the environment key also declares the
    response modality [IMAGE]; the other two send no configuration. *)
Theorem request_shape :
  forall sdk v k image mime instruction w,
    network (snd (editImageWithPrompt v sdk k image mime instruction w))
    = (network w
       ++ (if keyMissing v k then []
           else match constructorThrows sdk (resolvedKey v k) with
                | Some _ => []
                | None =>
                    [ (mkClient (resolvedKey v k),
                       {| model := "gemini-2.5-flash-image";
                          contents :=
                            mkContent
                              (Some [ mkPart (Some (mkBlob (Some image) (Some mime))) None;
                                      mkPart None (Some instruction) ]);
                          config :=
                            match v with
                            | EnvKey => Some (mkConfig [IMAGE])
                            | ExplicitKey | LocalKey => None
                            end |}) ]
                end))%list.
Proof.
  intros sdk v k image mime instruction w.
  destruct (keyMissing v k) eqn:Hkey.
  - rewrite run_without_key by exact Hkey. cbn [snd].
    now rewrite app_nil_r.
  - destruct (constructorThrows sdk (resolvedKey v k)) as [e |] eqn:Hbuilt.
    + rewrite (run_constructor_throws sdk v k image mime instruction w e Hkey Hbuilt).
      cbn [snd]. now rewrite app_nil_r.
    + rewrite run_with_key by assumption.
      destruct (generateContent sdk _ _); cbn [snd network]; destruct v; reflexivity.
Qed.

(** ** Strings: [trim], [toLowerCase], [includes] *)

Lemma trimStart_length (s : string) :
  String.length (trimStart s) <= String.length s.
Proof.
  induction s as [| c s IH]; simpl; [lia |].
  destruct (isWhiteSpace c); simpl; lia.
Qed.

Lemma trimStart_idem (s : string) : trimStart (trimStart s) = trimStart s.
Proof.
  induction s as [| c s IH]; simpl; [reflexivity |].
  destruct (isWhiteSpace c) eqn:Hc; [exact IH |].
  simpl. now rewrite Hc.
Qed.

Lemma trimStart_fixed_head (c : ascii) (s : string) :
  trimStart (String c s) = String c s -> isWhiteSpace c = false.
Proof.
  simpl. destruct (isWhiteSpace c); [| reflexivity].
  intros H. apply (f_equal String.length) in H. simpl in H.
  pose proof (trimStart_length s). lia.
Qed.

Lemma trimEnd_idem (s : string) : trimEnd (trimEnd s) = trimEnd s.
Proof.
  induction s as [| c s IH]; simpl; [reflexivity |].
  destruct (trimEnd s) as [| d r] eqn:Hs.
  - destruct (isWhiteSpace c) eqn:Hc; simpl; [reflexivity | now rewrite Hc].
  - change (trimEnd (String c (String d r))) with
      (match trimEnd (String d r) with
       | EmptyString =>
           if isWhiteSpace c then EmptyString else String c EmptyString
       | String _ _ as r' => String c r'
       end).
    now rewrite IH.
Qed.

Lemma trimStart_trimEnd (s : string) :
  trimStart s = s -> trimStart (trimEnd s) = trimEnd s.
Proof.
  destruct s as [| c s]; [reflexivity |].
  intros H. apply trimStart_fixed_head in H.
  simpl. destruct (trimEnd s); [rewrite H |]; simpl; now rewrite H.
Qed.

Lemma trim_idem (s : string) : trim (trim s) = trim s.
Proof.
  unfold trim.
  rewrite (trimStart_trimEnd (trimStart s)) by apply trimStart_idem.
  apply trimEnd_idem.
Qed.

Lemma trimStart_append (s rest : string) :
  trimStart s = s -> s <> EmptyString -> trimStart (s ++ rest) = s ++ rest.
Proof.
  destruct s as [| c s]; [congruence |].
  intros H _. apply trimStart_fixed_head in H.
  simpl. now rewrite H.
Qed.

Lemma append_nonempty_r (a b : string) :
  b <> EmptyString -> a ++ b <> EmptyString.
Proof. destruct a; simpl; [auto | discriminate]. Qed.

Lemma trimEnd_append (a b : string) :
  trimEnd b = b -> b <> EmptyString -> trimEnd (a ++ b) = a ++ b.
Proof.
  intros Hb Hne. induction a as [| c a IH]; simpl; [exact Hb |].
  rewrite IH.
  destruct (a ++ b) eqn:Hab; [| reflexivity].
  exfalso. exact (append_nonempty_r a b Hne Hab).
Qed.

Lemma append_assoc (a b c : string) : (a ++ b) ++ c = a ++ (b ++ c).
Proof. induction a as [| x a IH]; simpl; [reflexivity | now rewrite IH]. Qed.

(** Joining two trimmed, non-empty strings gives a trimmed string. *)
Lemma trim_joined (a sep b : string) :
  trim a = a -> a <> EmptyString ->
  trim b = b -> b <> EmptyString ->
  trim (a ++ sep ++ b) = a ++ sep ++ b.
Proof.
  intros Ha Hane Hb Hbne.
  assert (Hstart : trimStart a = a).
  { rewrite <- Ha. unfold trim.
    apply trimStart_trimEnd, trimStart_idem. }
  assert (Hend : trimEnd b = b).
  { rewrite <- Hb. unfold trim. apply trimEnd_idem. }
  unfold trim. rewrite (trimStart_append a (sep ++ b) Hstart Hane).
  rewrite <- append_assoc. now apply trimEnd_append.
Qed.

Lemma toLowerCase_append (a b : string) :
  toLowerCase (a ++ b) = toLowerCase a ++ toLowerCase b.
Proof. induction a as [| c a IH]; simpl; [reflexivity | now rewrite IH]. Qed.

Lemma prefix_refl (s : string) : prefix s s = true.
Proof.
  induction s as [| c s IH]; simpl; [reflexivity |].
  destruct (ascii_dec c c); [exact IH | congruence].
Qed.

Lemma includes_unfold (s t : string) :
  includes s t
  = if prefix t s then true
    else match s with
         | EmptyString => false
         | String _ s' => includes s' t
         end.
Proof. destruct s; reflexivity. Qed.

Lemma includes_empty (s : string) : includes s EmptyString = true.
Proof. destruct s; reflexivity. Qed.

(** A string ends with what was appended to it. *)
Lemma includes_append (a t : string) : includes (a ++ t) t = true.
Proof.
  induction a as [| c a IH].
  - simpl. rewrite includes_unfold. now rewrite prefix_refl.
  - rewrite includes_unfold. simpl append.
    destruct (prefix t (String c (a ++ t))); [reflexivity | exact IH].
Qed.

Lemma length_zero (s : string) :
  (String.length s =? 0)%nat = true <-> s = EmptyString.
Proof. destruct s; simpl; split; congruence. Qed.

(** ** The claims about [App.tsx] *)

Lemma promptWithToken_idem (token prev : string) :
  trim token = token ->
  promptWithToken token (promptWithToken token prev) = promptWithToken token prev.
Proof.
  intros Htoken.
  unfold promptWithToken at 2 3. cbv zeta.
  destruct (String.length (trim prev) =? 0)%nat eqn:Hlen.
  - (* the prompt was blank: the token is now the prompt *)
    unfold promptWithToken. cbv zeta. rewrite Htoken.
    destruct (String.length token =? 0)%nat; [reflexivity |].
    replace (includes (toLowerCase token) (toLowerCase token)) with true;
      [reflexivity |].
    symmetry. apply (includes_append EmptyString).
  - destruct (includes (toLowerCase (trim prev)) (toLowerCase token)) eqn:Hinc.
    + (* the token was there: nothing moved *)
      unfold promptWithToken. cbv zeta. now rewrite Hlen, Hinc.
    + (* the token was appended: now it is there *)
      assert (Hprev : trim prev <> EmptyString).
      { intros H. apply length_zero in H. congruence. }
      assert (Htok : token <> EmptyString).
      { intros ->. simpl in Hinc. rewrite includes_empty in Hinc. discriminate. }
      unfold promptWithToken. cbv zeta.
      rewrite (trim_joined (trim prev) ", " token (trim_idem prev) Hprev Htoken Htok).
      destruct (String.length (trim prev ++ ", " ++ token) =? 0)%nat eqn:Hlen'.
      { apply length_zero in Hlen'.
        exfalso. revert Hlen'. rewrite <- append_assoc.
        now apply append_nonempty_r. }
      rewrite <- append_assoc, toLowerCase_append, includes_append.
      now rewrite append_assoc.
Qed.

(** C9, as amended.  For a token without leading or trailing white space,
    as the presets of the page are, adding the token twice gives the
    state that adding it once gives.  The cases are tried in this order:
    a prompt that is blank after trimming becomes the token; otherwise a
    prompt whose trimmed text contains the token, letter case aside, stays
    as it is; otherwise the prompt becomes its trimmed text, a comma, a
    space and the token. *)
Theorem addPromptToken_idempotent :
  forall token st,
    trim token = token ->
    addPromptToken token (addPromptToken token st) = addPromptToken token st
    /\ (trim (prompt st) = EmptyString -> prompt (addPromptToken token st) = token)
    /\ (trim (prompt st) <> EmptyString ->
        includes (toLowerCase (trim (prompt st))) (toLowerCase token) = true ->
        prompt (addPromptToken token st) = prompt st)
    /\ (trim (prompt st) <> EmptyString ->
        includes (toLowerCase (trim (prompt st))) (toLowerCase token) = false ->
        prompt (addPromptToken token st) = trim (prompt st) ++ ", " ++ token).
Proof.
  intros token st Htoken. split; [| split; [| split]].
  - unfold addPromptToken, setPrompt. cbn [prompt originalImage editedImage
      isLoading error isDragging showOriginal].
    now rewrite promptWithToken_idem.
  - intros Hblank. cbn. unfold promptWithToken. cbv zeta.
    now rewrite Hblank.
  - intros Hne Hinc. cbn. unfold promptWithToken. cbv zeta.
    rewrite Hinc.
    destruct (String.length (trim (prompt st)) =? 0)%nat eqn:Hlen;
      [| reflexivity].
    apply length_zero in Hlen. contradiction.
  - intros Hne Hinc. cbn. unfold promptWithToken. cbv zeta.
    rewrite Hinc.
    destruct (String.length (trim (prompt st)) =? 0)%nat eqn:Hlen;
      [| reflexivity].
    apply length_zero in Hlen. contradiction.
Qed.

Lemma addPromptToken_idempotent_witness :
  let st := setPrompt (fun _ => "  make it blue ") initialState in
  addPromptToken "HDR" (addPromptToken "HDR" st) = addPromptToken "HDR" st
  /\ prompt (addPromptToken "HDR" st) = "make it blue, HDR".
Proof.
  pose proof (addPromptToken_idempotent "HDR"
                (setPrompt (fun _ => "  make it blue ") initialState)
                eq_refl) as [Hidem [_ [_ Happend]]].
  split; [exact Hidem |].
  apply Happend; [discriminate | reflexivity].
Defined.

(** C9 as stated fails for a token that starts with white space: added to
    the empty prompt it becomes the prompt, and a second click no longer
    finds it in the trimmed prompt and appends it again. *)
Lemma padded_token_is_added_twice :
  prompt (addPromptToken " a" initialState) = " a"
  /\ prompt (addPromptToken " a" (addPromptToken " a" initialState)) = "a,  a"
  /\ addPromptToken " a" (addPromptToken " a" initialState)
     <> addPromptToken " a" initialState.
Proof. repeat split. discriminate. Qed.

(** The guard of [handleSubmit], condition by condition. *)
Lemma submitGuard_true (st : AppState) :
  submitGuard st = true
  <-> originalImage st = None \/ prompt st = EmptyString \/ isLoading st = true.
Proof.
  unfold submitGuard.
  destruct (originalImage st) as [img |], (prompt st) as [| c s], (isLoading st);
    simpl; split; intros H; try reflexivity; auto;
    destruct H as [H | [H | H]]; discriminate.
Qed.

(** What [handleSubmit] does once its guard lets it through. *)
Lemma handleSubmit_runs edit (pg : Page) (img : ImageFile) :
  originalImage (ui pg) = Some img ->
  submitGuard (ui pg) = false ->
  handleSubmit edit pg
  = let st := setEditedImage None (setError None (setIsLoading true (ui pg))) in
    let called := (serviceCalls pg
                   ++ [(base64 img, mimeType img, prompt (ui pg))])%list in
    match edit (base64 img) (mimeType img) (prompt (ui pg)) (world pg) with
    | (Fulfilled generatedImage, w') =>
        if truthy generatedImage
        then (Fulfilled tt,
              mkPage (setIsLoading false
                        (setEditedImage
                           (Some ("data:image/png;base64," ++ toString generatedImage))
                           st))
                     w' called)
        else (Fulfilled tt,
              mkPage (setIsLoading false
                        (setError
                           (Some ("Generation failed: "
                                  ++ "The model did not return an image. Try a different prompt."))
                           st))
                     w' called)
    | (Rejected err, w') =>
        (Fulfilled tt,
         mkPage (setIsLoading false
                   (setError
                      (Some ("Generation failed: "
                             ++ match err with
                                | ErrorObj message => message
                                | NonError _ => "An unknown error occurred."
                                end))
                      st))
                w' called)
    end.
Proof.
  intros Himg Hguard. unfold handleSubmit. rewrite Hguard, Himg.
  unfold tryFinally, tryCatch, bind, update, modify, callService, throw, ret.
  cbn [ui world serviceCalls].
  destruct (edit _ _ _ _) as [[generatedImage | err] w'].
  - destruct (truthy generatedImage); reflexivity.
  - destruct err; reflexivity.
Qed.

(** C6.  [handleSubmit] returns at once, the page as it was and the
    service not invoked, whenever no original image is loaded, the prompt
    is empty or a request is in flight; and every invocation of
    [editImageWithPrompt] it does make carries a non-empty instruction. *)
Theorem handleSubmit_never_sends_empty_instruction :
  forall edit pg,
    (originalImage (ui pg) = None \/ prompt (ui pg) = EmptyString \/ isLoading (ui pg) = true ->
     handleSubmit edit pg = (Fulfilled tt, pg))
    /\ exists new,
        serviceCalls (snd (handleSubmit edit pg)) = (serviceCalls pg ++ new)%list
        /\ Forall (fun call => snd call <> EmptyString) new.
Proof.
  intros edit pg. split.
  - intros H. apply submitGuard_true in H.
    unfold handleSubmit. now rewrite H.
  - destruct (submitGuard (ui pg)) eqn:Hguard.
    + exists []. unfold handleSubmit. rewrite Hguard. cbn [snd ret].
      split; [now rewrite app_nil_r | constructor].
    + assert (Hprompt : prompt (ui pg) <> EmptyString).
      { intros H. assert (Ht : submitGuard (ui pg) = true)
          by (apply submitGuard_true; auto).
        congruence. }
      destruct (originalImage (ui pg)) as [img |] eqn:Himg.
      * exists [(base64 img, mimeType img, prompt (ui pg))].
        rewrite (handleSubmit_runs edit pg img Himg Hguard). cbv zeta.
        split; [| repeat constructor; exact Hprompt].
        destruct (edit _ _ _ _) as [[generatedImage | err] w'];
          [destruct (truthy generatedImage) |]; reflexivity.
      * assert (Ht : submitGuard (ui pg) = true)
          by (apply submitGuard_true; auto).
        congruence.
Qed.

Lemma handleSubmit_never_sends_empty_instruction_witness :
  let pg := mkPage (mkAppState (Some (mkImageFile "AAAA" "image/png" "cat.png"))
                      None EmptyString false None false false)
              emptyWorld [] in
  handleSubmit
    (editImageWithPrompt EnvKey (mockSdk (fun _ _ => Fulfilled (mkResponse None)))
       (mkKeySources Undefined EmptyString (Str "K")))
    pg
  = (Fulfilled tt, pg).
Proof.
  intros pg.
  apply (proj1 (handleSubmit_never_sends_empty_instruction
                  (editImageWithPrompt EnvKey (mockSdk (fun _ _ => Fulfilled (mkResponse None)))
                     (mkKeySources Undefined EmptyString (Str "K")))
                  pg)).
  right. left. reflexivity.
Defined.

(** C10.  When [handleSubmit] makes the edit call (an original image is
    loaded, the prompt is not empty, no request is in flight: the states
    in which the Generate button lets it run), it completes without
    throwing and with [isLoading] false, whatever the edit call does.  When the call throws, or resolves to no image (a falsy
    result), [editedImage] is [null] and [error] is a message that starts
    with ['Generation failed: ']; when the call resolves to an image,
    [editedImage] is the data URL around the returned base64 text and
    [error] is [null]. *)
Theorem handleSubmit_atomic :
  forall edit pg img,
    originalImage (ui pg) = Some img ->
    prompt (ui pg) <> EmptyString ->
    isLoading (ui pg) = false ->
    let result := handleSubmit edit pg in
    let st' := ui (snd result) in
    fst result = Fulfilled tt
    /\ isLoading st' = false
    /\ match fst (edit (base64 img) (mimeType img) (prompt (ui pg)) (world pg)) with
       | Fulfilled (Str (String c s)) =>
           editedImage st' = Some ("data:image/png;base64," ++ String c s)
           /\ error st' = None
       | Fulfilled _ =>
           editedImage st' = None
           /\ error st'
              = Some ("Generation failed: "
                      ++ "The model did not return an image. Try a different prompt.")
       | Rejected err =>
           editedImage st' = None
           /\ error st'
              = Some ("Generation failed: "
                      ++ match err with
                         | ErrorObj message => message
                         | NonError _ => "An unknown error occurred."
                         end)
       end.
Proof.
  intros edit pg img Himg Hprompt Hloading result st'.
  assert (Hguard : submitGuard (ui pg) = false).
  { destruct (submitGuard (ui pg)) eqn:Hg; [| reflexivity].
    apply submitGuard_true in Hg. destruct Hg as [Hg | [Hg | Hg]]; congruence. }
  unfold st', result. rewrite (handleSubmit_runs edit pg img Himg Hguard).
  cbv zeta.
  destruct (edit _ _ _ _) as [[generatedImage | err] w']; cbn [fst].
  - destruct generatedImage as [[| c s] | |]; cbn; repeat split; reflexivity.
  - cbn. repeat split.
Qed.

Lemma handleSubmit_atomic_witness :
  let edit :=
    editImageWithPrompt LocalKey (mockSdk (fun _ _ => Rejected (ErrorObj "quota exceeded")))
      (mkKeySources Undefined EmptyString (Str "K")) in
  let pg := mkPage (mkAppState (Some (mkImageFile "AAAA" "image/png" "cat.png"))
                      (Some "data:image/png;base64,OLD") "make it blue" false
                      None false false)
              emptyWorld [] in
  let st' := ui (snd (handleSubmit edit pg)) in
  fst (handleSubmit edit pg) = Fulfilled tt
  /\ isLoading st' = false
  /\ editedImage st' = None
  /\ error st' = Some "Generation failed: API Error: quota exceeded".
Proof.
  intros edit pg st'.
  destruct (handleSubmit_atomic edit pg (mkImageFile "AAAA" "image/png" "cat.png")
              eq_refl ltac:(discriminate) eq_refl)
    as [Hdone [Hloading Hshown]].
  split; [exact Hdone |]. split; [exact Hloading |]. exact Hshown.
Defined.

(* ================================================================== *)
(** * Further properties *)

Import JsText.
Import Component.

(** ** The service: diagnostics and rejections *)

(** The console receives one entry, the failure as it came under the label
    of the version, when the remote call fails; a run that resolves, a run
    that stops at the key test and a run whose constructor throws write
    nothing. *)
Theorem failure_trace_on_console :
  forall sdk v k image mime instruction w,
    console (snd (editImageWithPrompt v sdk k image mime instruction w))
    = (console w
       ++ (if keyMissing v k then []
           else match constructorThrows sdk (resolvedKey v k) with
                | Some _ => []
                | None =>
                    match generateContent sdk (mkClient (resolvedKey v k))
                            (editRequest (declaresModality v) image mime instruction) with
                    | Fulfilled _ => []
                    | Rejected failure => [(consoleLabel v, failure)]
                    end
                end))%list.
Proof.
  intros sdk v k image mime instruction w.
  destruct (keyMissing v k) eqn:Hkey.
  - rewrite run_without_key by exact Hkey. cbn [snd]. now rewrite app_nil_r.
  - destruct (constructorThrows sdk (resolvedKey v k)) as [e |] eqn:Hbuilt.
    + rewrite (run_constructor_throws sdk v k image mime instruction w e Hkey Hbuilt).
      cbn [snd]. now rewrite app_nil_r.
    + rewrite run_with_key by assumption.
      destruct (generateContent sdk _ _); cbn [snd console];
        [now rewrite app_nil_r | reflexivity].
Qed.

(** Every rejection of the function is either what the constructor of the
    SDK threw, passed on as it is (the constructor is called before the
    [try]), or an [Error] with one of three messages: the missing-key
    message of the version, a message that starts with ["API Error: "], or
    the fixed unknown-error message. *)
Theorem rejection_messages :
  forall sdk v k image mime instruction w e,
    fst (editImageWithPrompt v sdk k image mime instruction w) = Rejected e ->
    constructorThrows sdk (resolvedKey v k) = Some e
    \/ e = ErrorObj (missingKeyMessage v)
    \/ (exists message, e = ErrorObj ("API Error: " ++ message))
    \/ e = ErrorObj unknownErrorMessage.
Proof.
  intros sdk v k image mime instruction w e.
  destruct (keyMissing v k) eqn:Hkey.
  - rewrite run_without_key by exact Hkey. cbn [fst].
    intros H. injection H as <-. right. now left.
  - destruct (constructorThrows sdk (resolvedKey v k)) as [thrownByCtor |] eqn:Hbuilt.
    + rewrite (run_constructor_throws sdk v k image mime instruction w _ Hkey Hbuilt).
      cbn [fst]. intros H. injection H as <-. now left.
    + rewrite run_with_key by assumption.
      destruct (generateContent sdk _ _) as [response | failure]; cbn [fst]; intros H.
      * discriminate.
      * injection H as <-. right. right.
        destruct failure as [message | other]; [left; now exists message | now right].
Qed.

Lemma rejection_messages_witness :
  let raw := ErrorObj "An API Key must be set when running in a browser" in
  constructorThrows (keyCheckingSdk (fun _ _ => Fulfilled (mkResponse None)))
    (resolvedKey EnvKey (mkKeySources Undefined EmptyString Undefined))
  = Some raw
  \/ raw = ErrorObj (missingKeyMessage EnvKey)
  \/ (exists message, raw = ErrorObj ("API Error: " ++ message))
  \/ raw = ErrorObj unknownErrorMessage.
Proof.
  apply (rejection_messages (keyCheckingSdk (fun _ _ => Fulfilled (mkResponse None)))
           EnvKey (mkKeySources Undefined EmptyString Undefined) "AAAA" "image/png"
           "make it blue" emptyWorld).
  reflexivity.
Defined.

(** ** [handleSubmit] wired to the service *)

Section SubmitWithService.
Variable sdk : Sdk.
Variables (v : Version) (k : KeySources).
Variables (pg : Page) (img : ImageFile).

Hypothesis Himage : originalImage (ui pg) = Some img.
Hypothesis Hprompt : prompt (ui pg) <> EmptyString.
Hypothesis Hidle : isLoading (ui pg) = false.

Let after := snd (handleSubmit (editImageWithPrompt v sdk k) pg).

Lemma guard_open : submitGuard (ui pg) = false.
Proof.
  destruct (submitGuard (ui pg)) eqn:Hg; [| reflexivity].
  apply submitGuard_true in Hg. destruct Hg as [Hg | [Hg | Hg]]; congruence.
Qed.

(** A version that finds no key never reaches the network: the page shows
    its missing-key message. *)
Lemma submit_without_key :
  keyMissing v k = true ->
  world after = world pg
  /\ editedImage (ui after) = None
  /\ error (ui after) = Some ("Generation failed: " ++ missingKeyMessage v).
Proof.
  intros Hkey. unfold after.
  rewrite (handleSubmit_runs _ pg img Himage guard_open). cbv zeta.
  rewrite run_without_key by exact Hkey. cbn. repeat split.
Qed.

(** A failure of the remote call reaches the page under both prefixes. *)
Lemma submit_with_remote_failure (failure : thrown) :
  keyMissing v k = false ->
  constructorThrows sdk (resolvedKey v k) = None ->
  (forall ai params, generateContent sdk ai params = Rejected failure) ->
  List.length (network (world after)) = S (List.length (network (world pg)))
  /\ editedImage (ui after) = None
  /\ error (ui after)
     = Some ("Generation failed: "
             ++ match failure with
                | ErrorObj message => "API Error: " ++ message
                | NonError _ =>
                    "An unknown error occurred while communicating with the API."
                end).
Proof.
  intros Hkey Hbuilt Hremote. unfold after.
  rewrite (handleSubmit_runs _ pg img Himage guard_open). cbv zeta.
  rewrite run_with_key by assumption. rewrite Hremote.
  cbn. rewrite length_app. cbn. repeat split. lia.
Qed.

(** What the page does with a response, by its first inline part. *)
Lemma submit_with_response (response : GenerateContentResponse) :
  keyMissing v k = false ->
  constructorThrows sdk (resolvedKey v k) = None ->
  (forall ai params, generateContent sdk ai params = Fulfilled response) ->
  match forParts (firstCandidateParts response) with
  | Some (Str (String c s)) =>
      editedImage (ui after) = Some ("data:image/png;base64," ++ String c s)
      /\ error (ui after) = None
  | _ =>
      editedImage (ui after) = None
      /\ error (ui after)
         = Some ("Generation failed: "
                 ++ "The model did not return an image. Try a different prompt.")
  end.
Proof.
  intros Hkey Hbuilt Hremote. unfold after.
  rewrite (handleSubmit_runs _ pg img Himage guard_open). cbv zeta.
  rewrite run_with_key by assumption. rewrite Hremote.
  destruct (forParts (firstCandidateParts response)) as [[[| c s] | |] |];
    cbn; split; reflexivity.
Qed.

End SubmitWithService.

(** With no key for a version that tests it, a submit that passes the
    guard sends nothing to the remote service; the page shows no image and
    the missing-key message after ['Generation failed: ']. *)
Theorem submit_reports_missing_key :
  forall sdk v k pg img,
    originalImage (ui pg) = Some img ->
    prompt (ui pg) <> EmptyString ->
    isLoading (ui pg) = false ->
    keyMissing v k = true ->
    let after := snd (handleSubmit (editImageWithPrompt v sdk k) pg) in
    world after = world pg
    /\ editedImage (ui after) = None
    /\ error (ui after) = Some ("Generation failed: " ++ missingKeyMessage v).
Proof.
  intros sdk v k pg img Himage Hprompt Hidle Hkey.
  exact (submit_without_key sdk v k pg img Himage Hprompt Hidle Hkey).
Qed.

Lemma submit_reports_missing_key_witness :
  let pg := mkPage (mkAppState (Some (mkImageFile "AAAA" "image/png" "cat.png"))
                      None "make it blue" false None false false)
              emptyWorld [] in
  let after :=
    snd (handleSubmit
           (editImageWithPrompt LocalKey (mockSdk (fun _ _ => Fulfilled (mkResponse None)))
              (mkKeySources Undefined EmptyString Undefined)) pg) in
  world after = emptyWorld
  /\ editedImage (ui after) = None
  /\ error (ui after)
     = Some ("Generation failed: " ++ ServiceLocalKey.missingKeyMessage).
Proof.
  intros pg.
  apply (submit_reports_missing_key (mockSdk (fun _ _ => Fulfilled (mkResponse None))) LocalKey
           (mkKeySources Undefined EmptyString Undefined) pg
           (mkImageFile "AAAA" "image/png" "cat.png"));
    solve [reflexivity | discriminate].
Defined.

(** When the remote call fails, a submit that passes the guard has made
    one call of [generateContent], shows no image, and shows the failure under both prefixes:
    ['Generation failed: API Error: '] and the message of the failure when
    it is an [Error], the unknown-error message of the service otherwise. *)
Theorem submit_reports_remote_failure :
  forall sdk v k pg img failure,
    originalImage (ui pg) = Some img ->
    prompt (ui pg) <> EmptyString ->
    isLoading (ui pg) = false ->
    keyMissing v k = false ->
    constructorThrows sdk (resolvedKey v k) = None ->
    (forall ai params, generateContent sdk ai params = Rejected failure) ->
    let after := snd (handleSubmit (editImageWithPrompt v sdk k) pg) in
    List.length (network (world after)) = S (List.length (network (world pg)))
    /\ editedImage (ui after) = None
    /\ error (ui after)
       = Some ("Generation failed: "
               ++ match failure with
                  | ErrorObj message => "API Error: " ++ message
                  | NonError _ =>
                      "An unknown error occurred while communicating with the API."
                  end).
Proof.
  intros sdk v k pg img failure Himage Hprompt Hidle Hkey Hbuilt Hremote.
  exact (submit_with_remote_failure sdk v k pg img Himage Hprompt Hidle
           failure Hkey Hbuilt Hremote).
Qed.

Lemma submit_reports_remote_failure_witness :
  let pg := mkPage (mkAppState (Some (mkImageFile "AAAA" "image/png" "cat.png"))
                      None "make it blue" false None false false)
              emptyWorld [] in
  let after :=
    snd (handleSubmit
           (editImageWithPrompt EnvKey (mockSdk (fun _ _ => Rejected (NonError (Str "offline"))))
              (mkKeySources Undefined EmptyString (Str "K"))) pg) in
  List.length (network (world after)) = 1
  /\ editedImage (ui after) = None
  /\ error (ui after)
     = Some "Generation failed: An unknown error occurred while communicating with the API.".
Proof.
  intros pg.
  apply (submit_reports_remote_failure (mockSdk (fun _ _ => Rejected (NonError (Str "offline"))))
           EnvKey (mkKeySources Undefined EmptyString (Str "K")) pg
           (mkImageFile "AAAA" "image/png" "cat.png") (NonError (Str "offline")));
    solve [reflexivity | discriminate | intros; reflexivity].
Defined.

(** When the first inline part of the response has non-empty data, a
    submit that passes the guard shows those data in a data URL that is
    always labelled [image/png], whatever MIME type the part declares, and
    shows no error. *)
Theorem submit_shows_first_inline_image :
  forall sdk v k pg img pre post part declared c s laterCandidates,
    originalImage (ui pg) = Some img ->
    prompt (ui pg) <> EmptyString ->
    isLoading (ui pg) = false ->
    keyMissing v k = false ->
    constructorThrows sdk (resolvedKey v k) = None ->
    (forall ai params,
        generateContent sdk ai params
        = Fulfilled
            (mkResponse
               (Some (mkCandidate (Some (mkContent (Some (pre ++ part :: post)%list)))
                        :: laterCandidates)))) ->
    Forall (fun p => inlineData p = None) pre ->
    inlineData part = Some (mkBlob (Some (String c s)) declared) ->
    let after := snd (handleSubmit (editImageWithPrompt v sdk k) pg) in
    editedImage (ui after) = Some ("data:image/png;base64," ++ String c s)
    /\ error (ui after) = None.
Proof.
  intros sdk v k pg img pre post part declared c s later
         Himage Hprompt Hidle Hkey Hbuilt Hremote Hpre Hpart.
  pose proof (submit_with_response sdk v k pg img Himage Hprompt Hidle _
                Hkey Hbuilt Hremote) as H.
  unfold firstCandidateParts in H. cbn [candidates content parts] in H.
  rewrite (forParts_first pre post part _ Hpre Hpart) in H.
  exact H.
Qed.

Lemma submit_shows_first_inline_image_witness :
  let pg := mkPage (mkAppState (Some (mkImageFile "AAAA" "image/png" "cat.png"))
                      None "make it blue" false None false false)
              emptyWorld [] in
  let remote : Transport :=
    fun _ _ =>
      Fulfilled
        (mkResponse
           (Some [ mkCandidate
                     (Some (mkContent
                        (Some [ mkPart None (Some "Here it is");
                                mkPart (Some (mkBlob (Some "BBBB") (Some "image/jpeg"))) None ]))) ])) in
  let after :=
    snd (handleSubmit
           (editImageWithPrompt EnvKey (mockSdk remote)
              (mkKeySources Undefined EmptyString (Str "K"))) pg) in
  editedImage (ui after) = Some "data:image/png;base64,BBBB"
  /\ error (ui after) = None.
Proof.
  intros pg remote.
  apply (submit_shows_first_inline_image (mockSdk remote) EnvKey
           (mkKeySources Undefined EmptyString (Str "K")) pg
           (mkImageFile "AAAA" "image/png" "cat.png")
           [ mkPart None (Some "Here it is") ] []
           (mkPart (Some (mkBlob (Some "BBBB") (Some "image/jpeg"))) None)
           (Some "image/jpeg") "B"%char "BBB" []);
    solve [reflexivity | discriminate | intros; reflexivity | repeat constructor].
Defined.

(** When the first inline part of the response has no data or empty data,
    a submit that passes the guard reports that the model returned no
    image, even when a later part carries an image. *)
Theorem submit_stops_at_empty_inline_part :
  forall sdk v k pg img pre post part blob laterCandidates,
    originalImage (ui pg) = Some img ->
    prompt (ui pg) <> EmptyString ->
    isLoading (ui pg) = false ->
    keyMissing v k = false ->
    constructorThrows sdk (resolvedKey v k) = None ->
    (forall ai params,
        generateContent sdk ai params
        = Fulfilled
            (mkResponse
               (Some (mkCandidate (Some (mkContent (Some (pre ++ part :: post)%list)))
                        :: laterCandidates)))) ->
    Forall (fun p => inlineData p = None) pre ->
    inlineData part = Some blob ->
    data blob = None \/ data blob = Some EmptyString ->
    let after := snd (handleSubmit (editImageWithPrompt v sdk k) pg) in
    editedImage (ui after) = None
    /\ error (ui after)
       = Some "Generation failed: The model did not return an image. Try a different prompt.".
Proof.
  intros sdk v k pg img pre post part blob later
         Himage Hprompt Hidle Hkey Hbuilt Hremote Hpre Hpart Hdata.
  pose proof (submit_with_response sdk v k pg img Himage Hprompt Hidle _
                Hkey Hbuilt Hremote) as H.
  unfold firstCandidateParts in H. cbn [candidates content parts] in H.
  rewrite (forParts_first pre post part blob Hpre Hpart) in H.
  destruct Hdata as [Hd | Hd]; rewrite Hd in H; exact H.
Qed.

Lemma submit_stops_at_empty_inline_part_witness :
  let pg := mkPage (mkAppState (Some (mkImageFile "AAAA" "image/png" "cat.png"))
                      None "make it blue" false None false false)
              emptyWorld [] in
  let remote : Transport :=
    fun _ _ =>
      Fulfilled
        (mkResponse
           (Some [ mkCandidate
                     (Some (mkContent
                        (Some [ mkPart (Some (mkBlob (Some EmptyString) (Some "image/png"))) None;
                                mkPart (Some (mkBlob (Some "BBBB") (Some "image/png"))) None ]))) ])) in
  let after :=
    snd (handleSubmit
           (editImageWithPrompt EnvKey (mockSdk remote)
              (mkKeySources Undefined EmptyString (Str "K"))) pg) in
  editedImage (ui after) = None
  /\ error (ui after)
     = Some "Generation failed: The model did not return an image. Try a different prompt.".
Proof.
  intros pg remote.
  apply (submit_stops_at_empty_inline_part (mockSdk remote) EnvKey
           (mkKeySources Undefined EmptyString (Str "K")) pg
           (mkImageFile "AAAA" "image/png" "cat.png")
           []
           [ mkPart (Some (mkBlob (Some "BBBB") (Some "image/png"))) None ]
           (mkPart (Some (mkBlob (Some EmptyString) (Some "image/png"))) None)
           (mkBlob (Some EmptyString) (Some "image/png")) []);
    solve [reflexivity | discriminate | intros; reflexivity | repeat constructor
           | right; reflexivity].
Defined.

(** ** Choosing a file *)

(** For a file whose type starts with ['image/'], [handleFileChange] reads
    the file once and completes without throwing, with [isLoading] false,
    the edited image cleared and the prompt untouched.  When the read
    succeeds the original image holds the data read, the type and the name
    of the file, and no error is shown; when it fails the original image
    is [null] and the load-failure message is shown. *)
Theorem handleFileChange_loads_image :
  forall fileToBase64 f b,
    startsWith (Dom.type f) "image/" = true ->
    let r := handleFileChange fileToBase64 (Some f) b in
    let st' := ui (page (snd r)) in
    fst r = Fulfilled tt
    /\ fileReads (snd r) = (fileReads b ++ [f])%list
    /\ isLoading st' = false
    /\ editedImage st' = None
    /\ prompt st' = prompt (ui (page b))
    /\ match fileToBase64 f with
       | Fulfilled base64 =>
           originalImage st' = Some (mkImageFile base64 (Dom.type f) (Dom.name f))
           /\ error st' = None
       | Rejected _ =>
           originalImage st' = None
           /\ error st' = Some "Failed to load image. Please try another one."
       end.
Proof.
  intros fileToBase64 f b Himage. unfold handleFileChange. rewrite Himage.
  unfold tryFinally, tryCatch, bind, updateUi, onPage, update, modify, readFile.
  cbn [page ui fst snd].
  destruct (fileToBase64 f) as [base64 | e]; cbn; repeat split.
Qed.

Lemma handleFileChange_loads_image_witness :
  let f := Dom.mkFile "image/png" "cat.png" "bytes" in
  let r := handleFileChange (fun _ => Fulfilled "AAAA") (Some f) initialBrowser in
  originalImage (ui (page (snd r))) = Some (mkImageFile "AAAA" "image/png" "cat.png")
  /\ error (ui (page (snd r))) = None.
Proof.
  intros f.
  exact (proj2 (proj2 (proj2 (proj2 (proj2
           (handleFileChange_loads_image (fun _ => Fulfilled "AAAA") f
              initialBrowser eq_refl)))))).
Defined.

(** For a file of any other type, [handleFileChange] reads nothing: it
    sets the invalid-file message and clears the original image, and
    leaves the edited image, the loading flag and the prompt as they were.
    Without a file it changes nothing at all. *)
Theorem handleFileChange_refuses_other_files :
  forall fileToBase64 b,
    handleFileChange fileToBase64 None b = (Fulfilled tt, b)
    /\ forall f,
        startsWith (Dom.type f) "image/" = false ->
        let r := handleFileChange fileToBase64 (Some f) b in
        let st := ui (page b) in
        let st' := ui (page (snd r)) in
        fst r = Fulfilled tt
        /\ fileReads (snd r) = fileReads b
        /\ originalImage st' = None
        /\ error st' = Some "Please select a valid image file."
        /\ editedImage st' = editedImage st
        /\ isLoading st' = isLoading st
        /\ prompt st' = prompt st.
Proof.
  intros fileToBase64 b. split; [reflexivity |].
  intros f Hother. unfold handleFileChange. rewrite Hother.
  cbn. repeat split.
Qed.

Lemma handleFileChange_refuses_other_files_witness :
  let f := Dom.mkFile "application/pdf" "notes.pdf" "bytes" in
  let b := mkBrowser
             (mkPage (mkAppState (Some (mkImageFile "AAAA" "image/png" "cat.png"))
                        (Some "data:image/png;base64,BBBB") "make it blue" false
                        None false false)
                emptyWorld [])
             [] [] [] in
  let st' := ui (page (snd (handleFileChange (fun _ => Fulfilled "CCCC") (Some f) b))) in
  originalImage st' = None
  /\ error st' = Some "Please select a valid image file."
  /\ editedImage st' = Some "data:image/png;base64,BBBB".
Proof.
  intros f b.
  destruct (proj2 (handleFileChange_refuses_other_files (fun _ => Fulfilled "CCCC") b)
              f eq_refl)
    as [_ [_ [Horiginal [Herror [Hedited _]]]]].
  split; [exact Horiginal |]. split; [exact Herror | exact Hedited].
Defined.

(** [handleDrop] hands the event back with its default prevented and its
    propagation stopped, leaves the dragging flag off, and reads at most
    one file: the first of the dropped files, when its type starts with
    ['image/']. *)
Theorem handleDrop_reads_first_file_only :
  forall fileToBase64 e b,
    let r := handleDrop fileToBase64 e b in
    fst r = Fulfilled (Dom.mkDragEvent true true (Dom.files e))
    /\ isDragging (ui (page (snd r))) = false
    /\ fileReads (snd r)
       = (fileReads b
          ++ match Dom.files e with
             | Some (first :: _) =>
                 if startsWith (Dom.type first) "image/" then [first] else []
             | _ => []
             end)%list.
Proof.
  intros fileToBase64 e b.
  unfold handleDrop, handleDragEvent, bind, updateUi, onPage, update, modify, ret.
  cbn [page ui fst snd Dom.files].
  destruct (Dom.files e) as [[| first rest] |];
    try (cbn; repeat split; now rewrite app_nil_r).
  unfold handleFileChange.
  destruct (startsWith (Dom.type first) "image/").
  - unfold tryFinally, tryCatch, bind, updateUi, onPage, update, modify, readFile.
    cbn [page ui fst snd].
    destruct (fileToBase64 first); cbn; repeat split.
  - cbn. repeat split. now rewrite app_nil_r.
Qed.

(** ** Downloading the result *)

Lemma split_cons (sep : ascii) (s : string) :
  exists piece pieces, split sep s = piece :: pieces.
Proof.
  induction s as [| c s [piece [pieces IH]]]; simpl.
  - now exists EmptyString, [].
  - destruct (Ascii.eqb c sep).
    + now exists EmptyString, (split sep s).
    + rewrite IH. now exists (String c piece), pieces.
Qed.

(** Splitting at a separator that stands in the text. *)
Lemma split_at_separator (sep : ascii) (a b : string) :
  split sep (a ++ String sep b) = (split sep a ++ split sep b)%list.
Proof.
  induction a as [| c a IH]; simpl.
  - now rewrite Ascii.eqb_refl.
  - destruct (Ascii.eqb c sep); rewrite IH; [reflexivity |].
    destruct (split_cons sep a) as [piece [pieces ->]]. reflexivity.
Qed.

(** A text without the separator is one piece. *)
Lemma split_without_separator (sep : ascii) (s : string) :
  includes s (String sep EmptyString) = false -> split sep s = [s].
Proof.
  induction s as [| c s IH]; [reflexivity |].
  rewrite includes_unfold. simpl.
  destruct (ascii_dec sep c) as [-> | Hne].
  - destruct s; discriminate.
  - intros H. apply IH in H.
    destruct (Ascii.eqb_spec c sep) as [-> | _]; [congruence |].
    now rewrite H.
Qed.

(** Joining the pieces with the separator gives the text back. *)
Lemma join_split (sep : ascii) (s : string) :
  join (String sep EmptyString) (split sep s) = s.
Proof.
  induction s as [| c s IH]; [reflexivity |].
  simpl. destruct (Ascii.eqb_spec c sep) as [-> | _].
  - destruct (split_cons sep s) as [piece [pieces Hs]].
    change (join (String sep EmptyString) (EmptyString :: split sep s))
      with (match split sep s with
            | [] => EmptyString
            | _ :: _ =>
                EmptyString ++ String sep EmptyString
                ++ join (String sep EmptyString) (split sep s)
            end).
    rewrite Hs. rewrite <- Hs, IH. reflexivity.
  - destruct (split_cons sep s) as [piece [pieces Hs]].
    rewrite Hs in *.
    destruct pieces as [| next pieces]; simpl in *; now rewrite IH.
Qed.

(** The name offered for the download is the name of the original image
    without its last extension: for a name [stem.ext], where [ext] has no
    dot, it is [stem], and ['image'] when [stem] is empty. *)
Theorem download_name_drops_last_extension :
  forall img stem ext,
    name img = stem ++ "." ++ ext ->
    includes ext "." = false ->
    originalName (Some img)
    = Str (match stem with EmptyString => "image" | String _ _ => stem end).
Proof.
  intros img stem ext Hname Hext. unfold originalName, sliceButLast.
  rewrite Hname. simpl append.
  rewrite split_at_separator, (split_without_separator _ ext Hext).
  rewrite removelast_last, join_split.
  destruct stem; reflexivity.
Qed.

Lemma download_name_drops_last_extension_witness :
  originalName (Some (mkImageFile "AAAA" "image/png" "holiday.2024.png"))
  = Str "holiday.2024".
Proof.
  apply (download_name_drops_last_extension
           (mkImageFile "AAAA" "image/png" "holiday.2024.png") "holiday.2024" "png");
    reflexivity.
Defined.

(** Without an original image, or with one whose name has no dot, the
    name offered for the download falls back on ['image']. *)
Theorem download_name_falls_back :
  originalName None = Str "image"
  /\ forall img,
      includes (name img) "." = false ->
      originalName (Some img) = Str "image".
Proof.
  split; [reflexivity |].
  intros img Hname. unfold originalName, sliceButLast.
  now rewrite (split_without_separator _ (name img) Hname).
Qed.

Lemma download_name_falls_back_witness :
  originalName (Some (mkImageFile "AAAA" "image/png" "README")) = Str "image".
Proof.
  apply (proj2 download_name_falls_back
           (mkImageFile "AAAA" "image/png" "README")).
  reflexivity.
Defined.

(** [handleDownload] changes neither the page nor the children of
    [document.body].  With an edited image it clicks one link, whose
    target is that image and whose file name ends in ['-edited.png'];
    without one it clicks nothing. *)
Theorem handleDownload_clicks_one_link :
  forall b,
    let r := handleDownload b in
    let st := ui (page b) in
    fst r = Fulfilled tt
    /\ page (snd r) = page b
    /\ body (snd r) = body b
    /\ fileReads (snd r) = fileReads b
    /\ clicks (snd r)
       = (clicks b
          ++ match editedImage st with
             | Some (String c s) =>
                 [ Dom.mkAnchor (String c s)
                     (toString (originalName (originalImage st)) ++ "-edited.png") ]
             | _ => []
             end)%list.
Proof.
  intros b. unfold handleDownload.
  destruct (editedImage (ui (page b))) as [[| c s] |]; cbn;
    repeat split; try now rewrite app_nil_r.
  apply removelast_last.
Qed.

(** ** What is on the screen *)

(** In every state the result pane shows something: the spinner, the
    error box, the result image or the placeholder.  The placeholder is
    shown only when none of the other three is, and the spinner never
    together with the result image. *)
Theorem result_pane_never_blank :
  forall st,
    let v := render st in
    (spinner v = true \/ errorBox v <> None \/ resultImage v <> None
     \/ placeholder v = true)
    /\ (if placeholder v
        then spinner v = false /\ errorBox v = None /\ resultImage v = None
        else True)
    /\ (if spinner v then resultImage v = None else True).
Proof.
  intros [original edited text loading err dragging shown]. unfold render.
  cbn [editedImage isLoading error showOriginal prompt originalImage
       spinner errorBox resultImage placeholder].
  destruct edited as [[| c s] |], loading, err as [[| c' s'] |], shown,
    original as [img |];
    cbn; repeat split; auto;
    solve [ right; left; discriminate
          | right; right; left; discriminate
          | right; right; right; reflexivity ].
Qed.

(** The Generate button and [handleSubmit] agree: the handler invokes the
    service exactly when the button is enabled, once, with the base64 data
    and the MIME type of the loaded image and the prompt as typed. *)
Theorem generate_button_matches_handler :
  forall edit pg,
    serviceCalls (snd (handleSubmit edit pg))
    = (serviceCalls pg
       ++ (if generateDisabled (render (ui pg)) then []
           else match originalImage (ui pg) with
                | Some img => [(base64 img, mimeType img, prompt (ui pg))]
                | None => []
                end))%list.
Proof.
  intros edit pg.
  change (generateDisabled (render (ui pg))) with (submitGuard (ui pg)).
  destruct (submitGuard (ui pg)) eqn:Hguard.
  - unfold handleSubmit. rewrite Hguard. cbn. now rewrite app_nil_r.
  - destruct (originalImage (ui pg)) as [img |] eqn:Himage.
    + rewrite (handleSubmit_runs edit pg img Himage Hguard). cbv zeta.
      destruct (edit _ _ _ _) as [[generatedImage | err] w'];
        [destruct (truthy generatedImage) |]; reflexivity.
    + unfold submitGuard in Hguard. rewrite Himage in Hguard. discriminate.
Qed.

(** After a submit that passed the guard, the result pane shows either the
    result image or the error box, never both and never neither; the
    spinner and the placeholder are gone. *)
Theorem submit_ends_on_image_or_error :
  forall edit pg img,
    originalImage (ui pg) = Some img ->
    prompt (ui pg) <> EmptyString ->
    isLoading (ui pg) = false ->
    let v := render (ui (snd (handleSubmit edit pg))) in
    spinner v = false
    /\ placeholder v = false
    /\ ((resultImage v <> None /\ errorBox v = None)
        \/ (resultImage v = None /\ errorBox v <> None)).
Proof.
  intros edit pg img Himage Hprompt Hidle.
  rewrite (handleSubmit_runs edit pg img Himage
             (guard_open pg img Himage Hprompt Hidle)).
  cbv zeta.
  destruct (edit _ _ _ _) as [[generatedImage | err] w'].
  - destruct generatedImage as [[| c s] | |]; cbn.
    + repeat split. right. split; [reflexivity | discriminate].
    + unfold originalImageSrc. cbn. rewrite Himage.
      destruct (showOriginal (ui pg)); cbn; repeat split;
        left; (split; [discriminate | reflexivity]).
    + repeat split. right. split; [reflexivity | discriminate].
    + repeat split. right. split; [reflexivity | discriminate].
  - cbn. repeat split. right. split; [reflexivity | discriminate].
Qed.

Lemma submit_ends_on_image_or_error_witness :
  let pg := mkPage (mkAppState (Some (mkImageFile "AAAA" "image/png" "cat.png"))
                      None "make it blue" false None false false)
              emptyWorld [] in
  let v := render (ui (snd (handleSubmit
                             (editImageWithPrompt EnvKey
                                (mockSdk (fun _ _ => Fulfilled (mkResponse None)))
                                (mkKeySources Undefined EmptyString (Str "K")))
                             pg))) in
  spinner v = false
  /\ placeholder v = false
  /\ ((resultImage v <> None /\ errorBox v = None)
      \/ (resultImage v = None /\ errorBox v <> None)).
Proof.
  intros pg.
  apply (submit_ends_on_image_or_error _ pg (mkImageFile "AAAA" "image/png" "cat.png"));
    solve [reflexivity | discriminate].
Defined.

(** ** The handlers, one after the other *)

Lemma handleDownload_keeps_page (b : Browser) :
  page (snd (handleDownload b)) = page b
  /\ body (snd (handleDownload b)) = body b.
Proof.
  unfold handleDownload.
  destruct (editedImage (ui (page b))) as [[| c s] |]; cbn; split;
    try reflexivity.
  apply removelast_last.
Qed.

Section Handlers.
Variable edit : string -> string -> string -> Async World value.
Variable fileToBase64 : Dom.File -> completion string.

Lemma handleFileChange_at_rest (file : option Dom.File) (b : Browser) :
  AtRest b -> AtRest (snd (handleFileChange fileToBase64 file b)).
Proof.
  intros (Hidle & Horiginal & Hshown & Hcalls & Hbody).
  destruct file as [f |]; [| repeat split; assumption].
  unfold handleFileChange.
  destruct (startsWith (Dom.type f) "image/") eqn:Htype.
  - unfold tryFinally, tryCatch, bind, updateUi, onPage, update, modify, readFile.
    cbn [page ui fst snd].
    destruct (fileToBase64 f) as [base64 | e]; repeat split; cbn;
      try assumption; try discriminate.
    intros img H. injection H as <-. exact Htype.
  - repeat split; cbn; try assumption; discriminate.
Qed.

Lemma handleSubmit_at_rest (b : Browser) :
  AtRest b -> AtRest (snd (onPage (handleSubmit edit) b)).
Proof.
  intros (Hidle & Horiginal & Hshown & Hcalls & Hbody).
  unfold onPage.
  destruct (submitGuard (ui (page b))) eqn:Hguard.
  - unfold handleSubmit. rewrite Hguard. repeat split; assumption.
  - destruct (originalImage (ui (page b))) as [img |] eqn:Himage;
      [| unfold submitGuard in Hguard; rewrite Himage in Hguard; discriminate].
    assert (Hprompt : prompt (ui (page b)) <> EmptyString).
    { intros H. assert (Ht : submitGuard (ui (page b)) = true)
        by (apply submitGuard_true; auto).
      congruence. }
    assert (Hnew : Forall (fun call => startsWith (snd (fst call)) "image/" = true
                                       /\ snd call <> EmptyString)
                     (serviceCalls (page b)
                      ++ [(base64 img, mimeType img, prompt (ui (page b)))])%list).
    { apply Forall_app. split; [exact Hcalls |].
      constructor; [| constructor]. split; [now apply Horiginal | exact Hprompt]. }
    rewrite (handleSubmit_runs edit (page b) img Himage Hguard). cbv zeta.
    destruct (edit _ _ _ _) as [[generatedImage | err] w'].
    + destruct generatedImage as [[| c s] | |]; repeat split; cbn;
        try assumption; try discriminate;
        try (rewrite Himage; exact Horiginal).
      intros shown H. injection H as <-. now exists c, s.
    + repeat split; cbn; try assumption; try discriminate.
      rewrite Himage. exact Horiginal.
Qed.

Lemma dispatch_at_rest (ev : Event) (b : Browser) :
  AtRest b -> AtRest (snd (dispatch edit fileToBase64 ev b)).
Proof.
  intros Hrest. destruct ev as [files | e | e | e | | token | text | | | held |].
  - destruct files as [[| first rest] |]; try exact Hrest.
    apply handleFileChange_at_rest, Hrest.
  - exact Hrest.
  - exact Hrest.
  - unfold dispatch, handleDrop, handleDragEvent, bind, updateUi, onPage,
      update, modify, ret.
    cbn [page ui fst snd Dom.files].
    set (b' := mkBrowser _ _ _ _).
    assert (Hrest' : AtRest b') by exact Hrest.
    destruct (Dom.files e) as [[| first rest] |]; try exact Hrest'.
    pose proof (handleFileChange_at_rest (Some first) b' Hrest') as H.
    destruct (handleFileChange fileToBase64 (Some first) b') as [[[] | err] b''];
      exact H.
  - destruct Hrest as (Hidle & Horiginal & Hshown & Hcalls & Hbody).
    repeat split; cbn; try assumption; discriminate.
  - exact Hrest.
  - exact Hrest.
  - exact Hrest.
  - apply handleSubmit_at_rest, Hrest.
  - exact Hrest.
  - destruct Hrest as (Hidle & Horiginal & Hshown & Hcalls & Hbody).
    destruct (handleDownload_keeps_page b) as [Hpage Hkept].
    unfold dispatch, AtRest. rewrite Hpage, Hkept.
    repeat split; assumption.
Qed.

End Handlers.

(** Whatever handlers run from the initial page, each to its end, and
    whatever the service and the file reader do: afterwards nothing is
    loading, a loaded original image has a type that starts with
    ['image/'], a displayed result is a PNG data URL around non-empty data,
    every invocation of the service so far carried such a type and a
    non-empty instruction, and [document.body] holds no link. *)
Theorem handlers_leave_page_at_rest :
  forall edit fileToBase64 evs,
    let b := runEvents edit fileToBase64 evs initialBrowser in
    let st := ui (page b) in
    isLoading st = false
    /\ (forall img, originalImage st = Some img ->
                    startsWith (mimeType img) "image/" = true)
    /\ (forall shown, editedImage st = Some shown ->
                      exists c s, shown = "data:image/png;base64," ++ String c s)
    /\ Forall (fun call => startsWith (snd (fst call)) "image/" = true
                           /\ snd call <> EmptyString)
              (serviceCalls (page b))
    /\ body b = [].
Proof.
  intros edit fileToBase64 evs.
  assert (Hinit : AtRest initialBrowser).
  { repeat split; try discriminate. constructor. }
  revert Hinit. generalize initialBrowser as b.
  induction evs as [| ev evs IH]; intros b Hrest; [exact Hrest |].
  cbn [runEvents]. apply IH. now apply dispatch_at_rest.
Qed.

Lemma handlers_leave_page_at_rest_witness :
  let b := runEvents
             (editImageWithPrompt EnvKey (mockSdk (fun _ _ => Fulfilled (mkResponse None)))
                (mkKeySources Undefined EmptyString (Str "K")))
             (fun _ => Fulfilled "AAAA")
             [ FileInput (Some [Dom.mkFile "image/png" "cat.png" "bytes"]);
               TypePrompt "make it blue";
               Generate ]
             initialBrowser in
  serviceCalls (page b) = [("AAAA", "image/png", "make it blue")]
  /\ isLoading (ui (page b)) = false
  /\ body b = [].
Proof.
  intros b.
  destruct (handlers_leave_page_at_rest
              (editImageWithPrompt EnvKey (mockSdk (fun _ _ => Fulfilled (mkResponse None)))
                 (mkKeySources Undefined EmptyString (Str "K")))
              (fun _ => Fulfilled "AAAA")
              [ FileInput (Some [Dom.mkFile "image/png" "cat.png" "bytes"]);
                TypePrompt "make it blue";
                Generate ])
    as [Hidle [_ [_ [_ Hbody]]]].
  split; [reflexivity |]. split; [exact Hidle | exact Hbody].
Defined.

(** ** The preset buttons *)

Lemma prefix_append (a b : string) : prefix a (a ++ b) = true.
Proof.
  induction a as [| c a IH]; simpl; [destruct b; reflexivity |].
  destruct (ascii_dec c c); [exact IH | congruence].
Qed.

(** After [addPromptToken] with a token that has no white space around it,
    the trimmed prompt contains the token, letter case aside, and still
    starts with the text it had after trimming. *)
Theorem added_token_is_found :
  forall token st,
    trim token = token ->
    let prompt' := prompt (addPromptToken token st) in
    includes (toLowerCase (trim prompt')) (toLowerCase token) = true
    /\ (trim (prompt st) <> EmptyString ->
        prefix (trim (prompt st)) (trim prompt') = true).
Proof.
  intros token st Htoken. unfold addPromptToken, setPrompt. cbn [prompt].
  unfold promptWithToken. cbv zeta.
  destruct (String.length (trim (prompt st)) =? 0)%nat eqn:Hlen.
  - rewrite Htoken. split.
    + apply (includes_append EmptyString).
    + intros Hne. apply length_zero in Hlen. contradiction.
  - destruct (includes (toLowerCase (trim (prompt st))) (toLowerCase token)) eqn:Hinc.
    + split; [exact Hinc |]. intros _. apply prefix_refl.
    + assert (Hprev : trim (prompt st) <> EmptyString).
      { intros H. apply length_zero in H. congruence. }
      assert (Htok : token <> EmptyString).
      { intros ->. simpl in Hinc. rewrite includes_empty in Hinc. discriminate. }
      rewrite (trim_joined (trim (prompt st)) ", " token (trim_idem _) Hprev Htoken Htok).
      split.
      * rewrite <- append_assoc, toLowerCase_append. apply includes_append.
      * intros _. apply prefix_append.
Qed.

Lemma added_token_is_found_witness :
  let st := setPrompt (fun _ => "  Make it BLUE ") initialState in
  includes (toLowerCase (trim (prompt (addPromptToken "HDR" st)))) (toLowerCase "HDR")
  = true.
Proof.
  intros st.
  exact (proj1 (added_token_is_found "HDR" st eq_refl)).
Defined.

(** No preset of the page has white space around it. *)
Lemma presets_are_trimmed (token : string) :
  In token (STYLE_PRESETS ++ ENHANCEMENTS)%list -> trim token = token.
Proof.
  assert (Hall : forallb (fun t => String.eqb (trim t) t)
                   (STYLE_PRESETS ++ ENHANCEMENTS)%list = true)
    by (vm_compute; reflexivity).
  intros Hin. apply String.eqb_eq.
  exact (proj1 (forallb_forall _ _) Hall token Hin).
Qed.

(** For every button of [STYLE_PRESETS] and [ENHANCEMENTS] and every
    state, a second click changes nothing: the state after two clicks is
    the state after one. *)
Theorem preset_second_click_changes_nothing :
  forall token st,
    In token (STYLE_PRESETS ++ ENHANCEMENTS)%list ->
    addPromptToken token (addPromptToken token st) = addPromptToken token st.
Proof.
  intros token st Hin. unfold addPromptToken, setPrompt.
  cbn [prompt originalImage editedImage isLoading error isDragging showOriginal].
  now rewrite (promptWithToken_idem token (prompt st) (presets_are_trimmed token Hin)).
Qed.

Lemma preset_second_click_changes_nothing_witness :
  let st := setPrompt (fun _ => "portrait, hdr") initialState in
  addPromptToken "HDR" (addPromptToken "HDR" st) = addPromptToken "HDR" st.
Proof.
  intros st.
  apply (preset_second_click_changes_nothing "HDR" st).
  vm_compute. tauto.
Defined.

Lemma promptWithToken_nonempty (token prev : string) :
  token <> EmptyString -> promptWithToken token prev <> EmptyString.
Proof.
  intros Htoken. unfold promptWithToken. cbv zeta.
  destruct (String.length (trim prev) =? 0)%nat eqn:Hlen; [exact Htoken |].
  destruct (includes _ _).
  - intros ->. discriminate.
  - rewrite <- append_assoc. now apply append_nonempty_r.
Qed.

(** After [addPromptToken] with a non-empty token the prompt is not
    empty, so the Generate button is disabled only while no original image
    is loaded or a request is running. *)
Theorem token_click_leaves_prompt_ready :
  forall token st,
    token <> EmptyString ->
    prompt (addPromptToken token st) <> EmptyString
    /\ generateDisabled (render (addPromptToken token st))
       = (match originalImage st with None => true | Some _ => false end
          || isLoading st).
Proof.
  intros token st Htoken.
  pose proof (promptWithToken_nonempty token (prompt st) Htoken) as Hne.
  split; [exact Hne |].
  unfold render, addPromptToken, setPrompt.
  cbn [generateDisabled prompt originalImage isLoading].
  destruct (promptWithToken token (prompt st)); [congruence |].
  cbn. now rewrite orb_false_r.
Qed.

Lemma token_click_leaves_prompt_ready_witness :
  let st := setOriginalImage (Some (mkImageFile "AAAA" "image/png" "cat.png"))
              initialState in
  generateDisabled (render (addPromptToken "Origami" st)) = false.
Proof.
  intros st.
  exact (proj2 (token_click_leaves_prompt_ready "Origami" st ltac:(discriminate))).
Defined.

(** ** The earlier page *)

(** The result pane of the earlier page is blank in exactly one kind of
    state: a request is running, an edited image is held and no error is
    set.  The pane of the current page shows the image there. *)
Theorem earlier_pane_blank_only_while_loading :
  forall st,
    let v := Earlier.render st in
    negb (spinner v
          || match errorBox v with Some _ => true | None => false end
          || match resultImage v with Some _ => true | None => false end
          || placeholder v)
    = isLoading st
      && truthy (ofNullable (editedImage st))
      && negb (truthy (ofNullable (error st)))
    /\ (isLoading st && truthy (ofNullable (editedImage st)) = true ->
        resultImage (render st) <> None).
Proof.
  intros [original edited text loading err dragging shown].
  unfold Earlier.render, render.
  cbn [editedImage isLoading error showOriginal prompt originalImage
       spinner errorBox resultImage placeholder].
  destruct edited as [[| c s] |], loading, err as [[| c' s'] |], shown,
    original as [img |];
    cbn; split; try reflexivity; intros H; discriminate.
Qed.

Lemma earlier_pane_blank_only_while_loading_witness :
  resultImage (render (mkAppState None (Some "data:image/png;base64,BBBB")
                         "make it blue" true None false false))
  <> None.
Proof.
  apply (proj2 (earlier_pane_blank_only_while_loading
                  (mkAppState None (Some "data:image/png;base64,BBBB")
                     "make it blue" true None false false))).
  reflexivity.
Defined.
